(** * sber-trajectory-bot: the quiz mini-app and its servers

    A shallow embedding of the three JavaScript sources of the repository:

    - [backend/frontend/app.js], the quiz client (module [Client]): its
      module-level variables, the page elements it writes, the interval
      timers and the pending network calls of the browser, and every
      function of the file as a transformer of that state;
    - the two Express applications (module [Server]): the file with the
      [/data/...] routes on port 8000 and [backend/server.js].

    Numbers the program only counts with are [nat] (indices, lengths) or
    [Z] (identifiers, seconds, milliseconds); [null] and [undefined] are
    [None]. *)

From stdpp Require Import base option list strings pretty gmap.
From Stdlib Require Import ZArith NArith Lia.

Local Open Scope Z_scope.
Set Warnings "-register-all".

(** ** JSON values, shared by the client and the servers *)

Inductive json :=
| JNull
| JBool (b : bool)
| JNum (n : Z)
| JStr (s : string)
| JArr (items : list json)
| JObj (fields : list (string * json)).

(** [o.name] for a value read from JSON: a [TypeError] on [null] ([None]
    here), [undefined] ([Some None]) when the property is absent or the
    value is a primitive or an array. *)
Fixpoint assoc (name : string) (fields : list (string * json)) : option json :=
  match fields with
  | [] => None
  | (k, v) :: rest => if String.eqb k name then Some v else assoc name rest
  end.

Definition property (name : string) (o : json) : option (option json) :=
  match o with
  | JNull => None
  | JObj fields => Some (assoc name fields)
  | _ => Some None
  end.

(** JavaScript truthiness, as [if (v)] and [v || w] test it. *)
Definition truthy (v : option json) : bool :=
  match v with
  | None | Some JNull => false
  | Some (JBool b) => b
  | Some (JNum n) => negb (n =? 0)
  | Some (JStr s) => negb (String.eqb s "")
  | Some (JArr _) | Some (JObj _) => true
  end.

(** ** Math.random

    [Math.random()] returns a binary64 number [r] with [0 <= r < 1].  Every
    such number is [k / 2^1074] for exactly one [k < 2^1074]; a draw is kept
    as that [k], so two draws are equal exactly when the numbers are. *)

Definition unit_scale : N := (2 ^ 1074)%N.

Record random01 := Draw {
  r_bits : N;
  r_range : (r_bits <? unit_scale)%N = true
}.

(** [Math.floor(r * n)] for a count [n].  The product is taken exactly; the
    rounding of the binary64 product never reaches [n], so the range of the
    result is the one of [floor_mul_lt]. *)
Definition floor_mul (r : random01) (n : nat) : nat :=
  N.to_nat ((r_bits r * N.of_nat n) / unit_scale).

Definition draw_zero : random01 := Draw 0 eq_refl.
Definition draw_half : random01 := Draw (2 ^ 1073) eq_refl.
Definition draw_max : random01 := Draw (2 ^ 1074 - 1) eq_refl.

Module Client.

(** ** Data *)

Record Question := {
  q_id : Z;
  q_question : string;
  q_options : list string
}.

(** The body of [GET /questions]. *)
Record Catalog := {
  statistics : list Question;
  probability : list Question;
  ml : list Question
}.

Definition QUIZ_TIME : Z := 15 * 60.

Definition motivationPhrases : list string :=
  [ "Отлично! Продолжай!";
    "Ты молодец! 💪";
    "Так держать! 🔥";
    "У тебя получится! ⭐";
    "Почти финиш! 🎯";
    "Сосредоточься! 🎓";
    "Всё получится! ✨" ].

(** ** getTopicName *)

Definition getTopicName (id : Z) : string :=
  if id <=? 3 then "📊 Статистика"
  else if id <=? 6 then "🎲 Теория вероятностей"
  else "🤖 Machine Learning".

(** ** shuffleArray

    [[a[i], a[j]] = [a[j], a[i]]]: both elements are read, then [a[i]] and
    [a[j]] are written in that order.  Outside the array a read gives
    [undefined] and a write extends the array; [shuffle_loop_in_range] shows
    that the loop never gets there ([shuffle_checked] is the same loop,
    stopping at such an access), so the last branch is never taken. *)
Definition swap {A} (a : list A) (i j : nat) : list A :=
  match a !! i, a !! j with
  | Some x, Some y => <[j := x]> (<[i := y]> a)
  | _, _ => a
  end.

(** The loop [for (let i = newArray.length - 1; i > 0; i--)], started at
    [i]; [rnd k] is the result of the [k]-th call of [Math.random] from
    here on. *)
Fixpoint shuffle_loop {A} (rnd : nat -> random01) (i : nat) (newArray : list A)
  : list A :=
  match i with
  | O => newArray
  | S i' =>
      let j := floor_mul (rnd O) (i + 1) in
      shuffle_loop (fun k => rnd (S k)) i' (swap newArray i j)
  end.

Definition shuffleArray {A} (rnd : nat -> random01) (array : list A) : list A :=
  shuffle_loop rnd (length array - 1) array.

Fixpoint shuffle_checked {A} (rnd : nat -> random01) (i : nat) (newArray : list A)
  : option (list A) :=
  match i with
  | O => Some newArray
  | S i' =>
      let j := floor_mul (rnd O) (i + 1) in
      x ← newArray !! i;
      y ← newArray !! j;
      shuffle_checked (fun k => rnd (S k)) i' (<[j := x]> (<[i := y]> newArray))
  end.

(** The number of [Math.random] calls of one [shuffleArray]. *)
Definition shuffle_draws {A} (array : list A) : nat := length array - 1.


(** ** The state of the page

    Three parts: the module-level variables of [app.js], the elements of the
    page the script writes, and what the browser keeps for the script (the
    platform object [tg], the live interval timers, the calls it awaits).
    [trace] records, in order, the calls the claims count. *)

Inductive Screen := S_loading | S_welcome | S_quiz | S_final | S_error.

#[global] Instance Screen_eq_dec : EqDecision Screen.
Proof. solve_decision. Defined.

(** [tg.initDataUnsafe?.user?.id || 'test_user_' + Math.random()]: the
    platform's number, or the guest string, which is determined by the draw. *)
Inductive UserId := Platform (id : Z) | Guest (r : random01).

(** The body of [POST /submit]. *)
Record ResultRecord := {
  telegram_user_id : UserId;
  username : string;
  answers : list nat;
  time_spent : Z;
  questions : list Z
}.

Inductive Request :=
| GET_check_user (userId : UserId)
| GET_questions
| POST_submit (body : ResultRecord).

(** How [await fetch(...)] followed by [await response.json()] ends: the
    request rejects, the body cannot be used (it is not JSON, or for the
    catalog lacks one of the three lists, so that the spread throws), or the
    parsed body. *)
Inductive FetchResult (A : Type) :=
| Rejected
| Unreadable
| Body (data : A).
Arguments Rejected {A}.
Arguments Unreadable {A}.
Arguments Body {A} data.

Inductive Effect :=
| E_screen (sc : Screen)              (* showScreen(sc) *)
| E_fetch (r : Request)               (* fetch(...) *)
| E_setInterval (id : nat)            (* setInterval returned id *)
| E_clearInterval (id : option nat)   (* clearInterval(id) *)
| E_finish.                           (* finishQuiz() entered *)

(** A suspended [await]: which function waits, with the locals it needs. *)
Inductive Pending :=
| P_sleep                      (* init, at sleep(1500) *)
| P_check                      (* init, at the check-user response *)
| P_questions                  (* startQuiz, at the questions response *)
| P_submit (timeSpent : Z).    (* finishQuiz, at the submit response *)

Record Telegram := {
  tg_user_id : option Z;            (* tg.initDataUnsafe?.user?.id *)
  tg_username : option string       (* tg.initDataUnsafe?.user?.username *)
}.

Record Vars := {
  currentQuestionIndex : nat;
  allQuestions : list Question;
  userAnswers : list nat;
  startTime : option Z;
  timerInterval : option nat;
  timeRemaining : Z
}.

(** Text contents are [None] until the script writes them; numbers shown
    as [a/b] or [m:ss] are kept as the pair.  The width of the progress bar
    (a floating-point percentage) is left out. *)
Record Page := {
  active : option Screen;                (* the screen showScreen made active *)
  error_message : option string;
  question_counter : option (nat * nat);
  current_topic : option string;
  question_text : option string;
  option_buttons : list string;          (* button [i] calls selectAnswer(i) *)
  motivation_text : option string;
  timer : option (Z * Z);
  questions_answered : option (nat * nat);
  time_spent_text : option (Z * Z)
}.

Record Browser := {
  tg : Telegram;
  intervals : list nat;        (* the interval timers that still fire *)
  next_interval : nat;         (* the id the next setInterval returns *)
  pending : list Pending;
  trace : list Effect
}.

Record State := {
  vars : Vars;
  page : Page;
  browser : Browser
}.

(** What a handler gets from outside while it runs: [Date.now()] and the
    successive results of [Math.random()]. *)
Record Env := {
  now : Z;
  random : nat -> random01
}.

Definition with_vars (f : Vars -> Vars) (s : State) : State :=
  {| vars := f (vars s); page := page s; browser := browser s |}.
Definition with_page (f : Page -> Page) (s : State) : State :=
  {| vars := vars s; page := f (page s); browser := browser s |}.
Definition with_browser (f : Browser -> Browser) (s : State) : State :=
  {| vars := vars s; page := page s; browser := f (browser s) |}.

Definition log (e : Effect) : State -> State :=
  with_browser (fun b =>
    {| tg := tg b; intervals := intervals b; next_interval := next_interval b;
       pending := pending b; trace := trace b ++ [e] |}).

Definition await (p : Pending) : State -> State :=
  with_browser (fun b =>
    {| tg := tg b; intervals := intervals b; next_interval := next_interval b;
       pending := pending b ++ [p]; trace := trace b |}).

Definition resume (k : nat) : State -> State :=
  with_browser (fun b =>
    {| tg := tg b; intervals := intervals b; next_interval := next_interval b;
       pending := delete k (pending b); trace := trace b |}).

Definition fetch (r : Request) (p : Pending) (s : State) : State :=
  await p (log (E_fetch r) s).

Definition set_active (sc : Screen) (p : Page) : Page :=
  {| active := Some sc; error_message := error_message p;
     question_counter := question_counter p; current_topic := current_topic p;
     question_text := question_text p; option_buttons := option_buttons p;
     motivation_text := motivation_text p; timer := timer p;
     questions_answered := questions_answered p;
     time_spent_text := time_spent_text p |}.

Definition set_error_message (m : string) (p : Page) : Page :=
  {| active := active p; error_message := Some m;
     question_counter := question_counter p; current_topic := current_topic p;
     question_text := question_text p; option_buttons := option_buttons p;
     motivation_text := motivation_text p; timer := timer p;
     questions_answered := questions_answered p;
     time_spent_text := time_spent_text p |}.

Definition set_question_counter (c : nat * nat) (p : Page) : Page :=
  {| active := active p; error_message := error_message p;
     question_counter := Some c; current_topic := current_topic p;
     question_text := question_text p; option_buttons := option_buttons p;
     motivation_text := motivation_text p; timer := timer p;
     questions_answered := questions_answered p;
     time_spent_text := time_spent_text p |}.

Definition set_question (topic text : string) (buttons : list string) (p : Page)
  : Page :=
  {| active := active p; error_message := error_message p;
     question_counter := question_counter p; current_topic := Some topic;
     question_text := Some text; option_buttons := buttons;
     motivation_text := motivation_text p; timer := timer p;
     questions_answered := questions_answered p;
     time_spent_text := time_spent_text p |}.

Definition set_motivation (m : option string) (p : Page) : Page :=
  {| active := active p; error_message := error_message p;
     question_counter := question_counter p; current_topic := current_topic p;
     question_text := question_text p; option_buttons := option_buttons p;
     motivation_text := m; timer := timer p;
     questions_answered := questions_answered p;
     time_spent_text := time_spent_text p |}.

Definition set_timer (t : Z * Z) (p : Page) : Page :=
  {| active := active p; error_message := error_message p;
     question_counter := question_counter p; current_topic := current_topic p;
     question_text := question_text p; option_buttons := option_buttons p;
     motivation_text := motivation_text p; timer := Some t;
     questions_answered := questions_answered p;
     time_spent_text := time_spent_text p |}.

Definition set_final (answered : nat * nat) (spent : Z * Z) (p : Page) : Page :=
  {| active := active p; error_message := error_message p;
     question_counter := question_counter p; current_topic := current_topic p;
     question_text := question_text p; option_buttons := option_buttons p;
     motivation_text := motivation_text p; timer := timer p;
     questions_answered := Some answered;
     time_spent_text := Some spent |}.

(** ** The functions of app.js *)

(** A function body ends normally or by throwing; the state reached so far
    stays either way. *)
Inductive Completion :=
| Normal (s : State)
| Thrown (s : State).

(** An exception that leaves an event handler is reported by the browser
    and the handler is over. *)
Definition uncaught (c : Completion) : State :=
  match c with Normal s | Thrown s => s end.

Definition showScreen (screenName : Screen) (s : State) : State :=
  with_page (set_active screenName) (log (E_screen screenName) s).

(** [timerInterval = setInterval(..., 1000)] *)
Definition startTimer (s : State) : State :=
  let id := next_interval (browser s) in
  with_vars (fun v =>
    {| currentQuestionIndex := currentQuestionIndex v;
       allQuestions := allQuestions v; userAnswers := userAnswers v;
       startTime := startTime v; timerInterval := Some id;
       timeRemaining := timeRemaining v |})
  (with_browser (fun b =>
    {| tg := tg b; intervals := intervals b ++ [id]; next_interval := S id;
       pending := pending b; trace := trace b ++ [E_setInterval id] |}) s).

(** [clearInterval(x)]: the timer with that id, if any, fires no more. *)
Definition clearInterval (x : option nat) (s : State) : State :=
  with_browser (fun b =>
    {| tg := tg b;
       intervals := match x with
                    | Some id => filter (fun i => i <> id) (intervals b)
                    | None => intervals b
                    end;
       next_interval := next_interval b;
       pending := pending b; trace := trace b ++ [E_clearInterval x] |}) s.

Definition updateMotivation (r : random01) (s : State) : State :=
  with_page
    (set_motivation (motivationPhrases !! floor_mul r (length motivationPhrases)))
    s.

(** [question.id] throws when [allQuestions[currentQuestionIndex]] is
    [undefined]; the counter has been written by then. *)
Definition displayQuestion (r : random01) (s : State) : Completion :=
  let i := currentQuestionIndex (vars s) in
  let s1 :=
    with_page (set_question_counter ((i + 1)%nat, length (allQuestions (vars s)))) s in
  match allQuestions (vars s) !! i with
  | None => Thrown s1
  | Some question =>
      Normal (updateMotivation r
                (with_page (set_question (getTopicName (q_id question))
                                         (q_question question)
                                         (q_options question)) s1))
  end.

Definition current_userId (t : Telegram) (r : random01) : UserId :=
  match tg_user_id t with
  | Some id => if id =? 0 then Guest r else Platform id
  | None => Guest r
  end.

Definition current_username (t : Telegram) : string :=
  match tg_username t with
  | Some name => if String.eqb name "" then "Anonymous" else name
  | None => "Anonymous"
  end.

(** [finishQuiz], up to [await fetch(.../submit)].  [endTime - startTime]
    takes [null] as 0. *)
Definition finishQuiz (env : Env) (s : State) : State :=
  let s1 := clearInterval (timerInterval (vars s)) (log E_finish s) in
  let endTime := now env in
  let timeSpent := (endTime - default 0 (startTime (vars s1))) / 1000 in
  let userId := current_userId (tg (browser s1)) (random env O) in
  let username := current_username (tg (browser s1)) in
  fetch (POST_submit {| telegram_user_id := userId;
                        username := username;
                        answers := userAnswers (vars s1);
                        time_spent := timeSpent;
                        questions := map q_id (allQuestions (vars s1)) |})
        (P_submit timeSpent) s1.

(** [finishQuiz], after the [await]: the same whether the call succeeded
    or threw. *)
Definition finishQuiz_after_submit (timeSpent : Z) (s : State) : State :=
  with_page
    (set_final (length (userAnswers (vars s)), length (allQuestions (vars s)))
               (timeSpent / 60, Z.rem timeSpent 60))
    (showScreen S_final s).

Definition selectAnswer (answerIndex : nat) (env : Env) (s : State) : State :=
  let s1 :=
    with_vars (fun v =>
      {| currentQuestionIndex := S (currentQuestionIndex v);
         allQuestions := allQuestions v;
         userAnswers := userAnswers v ++ [answerIndex];
         startTime := startTime v; timerInterval := timerInterval v;
         timeRemaining := timeRemaining v |}) s in
  if (currentQuestionIndex (vars s1) <? length (allQuestions (vars s1)))%nat
  then uncaught (displayQuestion (random env O) s1)
  else finishQuiz env s1.

(** The callback given to [setInterval]. *)
Definition tick (env : Env) (s : State) : State :=
  let s1 :=
    with_vars (fun v =>
      {| currentQuestionIndex := currentQuestionIndex v;
         allQuestions := allQuestions v; userAnswers := userAnswers v;
         startTime := startTime v; timerInterval := timerInterval v;
         timeRemaining := timeRemaining v - 1 |}) s in
  let t := timeRemaining (vars s1) in
  let s2 := with_page (set_timer (t / 60, Z.rem t 60)) s1 in
  if t <=? 0
  then finishQuiz env (clearInterval (timerInterval (vars s2)) s2)
  else s2.

Definition could_not_load : string :=
  "Не удалось загрузить вопросы. Проверьте подключение к интернету.".

Definition already_completed : string :=
  "Вы уже прошли этот тест. Повторное прохождение невозможно. 🔒".

(** [startQuiz], up to [await fetch(.../questions)]. *)
Definition startQuiz (s : State) : State :=
  fetch GET_questions P_questions s.

(** The [catch] block of [startQuiz]. *)
Definition startQuiz_catch (s : State) : State :=
  with_page (set_error_message could_not_load) (showScreen S_error s).

(** [startQuiz], from the response on. *)
Definition startQuiz_after_fetch (env : Env) (resp : FetchResult Catalog)
  (s : State) : State :=
  match resp with
  | Body data =>
      let pool := statistics data ++ probability data ++ ml data in
      let s1 :=
        with_vars (fun v =>
          {| currentQuestionIndex := O;
             allQuestions := shuffleArray (random env) pool;
             userAnswers := [];
             startTime := Some (now env);
             timerInterval := timerInterval v;
             timeRemaining := timeRemaining v |}) s in
      let s2 := startTimer (showScreen S_quiz s1) in
      match displayQuestion (random env (shuffle_draws pool)) s2 with
      | Normal s3 => s3
      | Thrown s3 => startQuiz_catch s3
      end
  | _ => startQuiz_catch s
  end.

(** [init], from the end of [sleep(1500)] to [await fetch(.../check-user/...)]. *)
Definition init_after_sleep (env : Env) (s : State) : State :=
  let userId := current_userId (tg (browser s)) (random env O) in
  fetch (GET_check_user userId) P_check s.

(** [init], from the response on.  Whatever throws inside the [try] is
    logged and the welcome screen follows. *)
Definition init_after_check (resp : FetchResult json) (s : State) : State :=
  match resp with
  | Body data =>
      match property "completed" data with
      | Some completed =>
          if truthy completed
          then with_page (set_error_message already_completed)
                         (showScreen S_error s)
          else showScreen S_welcome s
      | None => showScreen S_welcome s
      end
  | _ => showScreen S_welcome s
  end.

(** ** The event loop

    Between two handlers the browser runs one of: a click on the start
    button (on the welcome screen), a click on an option button (on the quiz
    screen), a live interval timer firing, a suspended [await] being
    resumed.  A button can be clicked while its screen is the active one:
    the start button belongs to the welcome screen, the option buttons are
    the children of [options-container] on the quiz screen, and
    [finishQuiz] leaves the quiz screen active until its [await] is over.
    The two close buttons call [tg.close()], which ends the session; they
    are left out. *)

Inductive Settlement :=
| Slept
| Check_response (resp : FetchResult json)
| Questions_response (resp : FetchResult Catalog)
| Submit_response (ok : bool).

Inductive Event :=
| Click_start
| Click_option (answerIndex : nat)
| Interval_fires (id : nat)
| Settles (k : nat) (r : Settlement).

Definition step (env : Env) (e : Event) (s : State) : option State :=
  match e with
  | Click_start =>
      if bool_decide (active (page s) = Some S_welcome)
      then Some (startQuiz s) else None
  | Click_option answerIndex =>
      if bool_decide (active (page s) = Some S_quiz)
         && (answerIndex <? length (option_buttons (page s)))%nat
      then Some (selectAnswer answerIndex env s) else None
  | Interval_fires id =>
      if bool_decide (id ∈ intervals (browser s))
      then Some (tick env s) else None
  | Settles k r =>
      match pending (browser s) !! k, r with
      | Some P_sleep, Slept =>
          Some (init_after_sleep env (resume k s))
      | Some P_check, Check_response resp =>
          Some (init_after_check resp (resume k s))
      | Some P_questions, Questions_response resp =>
          Some (startQuiz_after_fetch env resp (resume k s))
      | Some (P_submit timeSpent), Submit_response _ =>
          Some (finishQuiz_after_submit timeSpent (resume k s))
      | _, _ => None
      end
  end.

Fixpoint run (events : list (Env * Event)) (s : State) : option State :=
  match events with
  | [] => Some s
  | (env, e) :: rest =>
      match step env e s with
      | Some s' => run rest s'
      | None => None
      end
  end.

(** The state when the script has run to the first [await] of [init()]. *)
Definition initial (t : Telegram) : State :=
  {| vars := {| currentQuestionIndex := O; allQuestions := [];
                userAnswers := []; startTime := None; timerInterval := None;
                timeRemaining := QUIZ_TIME |};
     page := {| active := None; error_message := None;
                question_counter := None; current_topic := None;
                question_text := None; option_buttons := [];
                motivation_text := None; timer := None;
                questions_answered := None; time_spent_text := None |};
     browser := {| tg := t; intervals := []; next_interval := 1%nat;
                   pending := [P_sleep]; trace := [] |} |}.

(** ** What the claims count *)

Definition is_finish (e : Effect) : bool :=
  match e with E_finish => true | _ => false end.

Definition finish_calls (s : State) : nat :=
  length (filter (fun e => is_finish e = true) (trace (browser s))).

Definition submitted (s : State) : list ResultRecord :=
  omap (fun e => match e with E_fetch (POST_submit r) => Some r | _ => None end)
       (trace (browser s)).

(** A question is on display: the quiz screen is the active one and the
    index is inside the sequence. *)
Definition in_progress (s : State) : bool :=
  bool_decide (active (page s) = Some S_quiz)
  && (currentQuestionIndex (vars s) <? length (allQuestions (vars s)))%nat.

(** The answers are as many as the index says. *)
Definition answers_match_index (s : State) : Prop :=
  length (userAnswers (vars s)) = currentQuestionIndex (vars s).

(** The identifiers the pre-check was asked about. *)
Definition checked (s : State) : list UserId :=
  omap (fun e => match e with E_fetch (GET_check_user u) => Some u | _ => None end)
       (trace (browser s)).

(** The option buttons are clicked one after the other: [selectAnswer]
    for each click, in order, each with what it gets from outside. *)
Definition select_all (clicks : list (Env * nat)) (s : State) : State :=
  fold_left (fun s c => selectAnswer c.2 c.1 s) clicks s.

Definition is_tick (e : Event) : bool :=
  match e with Interval_fires _ => true | _ => false end.

(** How many of the events are an interval firing. *)
Definition ticks_in (events : list (Env * Event)) : nat :=
  length (filter (fun c => is_tick c.2 = true) events).

(** What one handler can add to the trace, for the platform object [t]:
    nothing, one screen, one of the two GET requests, an entry into
    [finishQuiz] (from [selectAnswer], or from the interval callback after
    its own [clearInterval]), or the start of the quiz (which ends on the
    error screen when the first question cannot be displayed). *)
Inductive handler_trace (t : Telegram) : list Effect -> Prop :=
| ht_quiet : handler_trace t []
| ht_screen sc : handler_trace t [E_screen sc]
| ht_questions : handler_trace t [E_fetch GET_questions]
| ht_check r : handler_trace t [E_fetch (GET_check_user (current_userId t r))]
| ht_finish r x rec :
    telegram_user_id rec = current_userId t r ->
    username rec = current_username t ->
    handler_trace t [E_finish; E_clearInterval x; E_fetch (POST_submit rec)]
| ht_timeout r x rec :
    telegram_user_id rec = current_userId t r ->
    username rec = current_username t ->
    handler_trace t [E_clearInterval x; E_finish; E_clearInterval x;
                     E_fetch (POST_submit rec)]
| ht_start id : handler_trace t [E_screen S_quiz; E_setInterval id]
| ht_start_failed id :
    handler_trace t [E_screen S_quiz; E_setInterval id; E_screen S_error].

End Client.

Module Server.

(** ** Requests, replies and the files on disk

    A request path is its list of segments: [/data/questions] is
    [["data"; "questions"]]; a path that ends in a slash has the empty
    string as its last segment, so [/data/] is [["data"; ""]] and the root
    [/] is [[""]].  Segments are plain names (no [..], none empty before the
    last).

    The disk lists its directories as well as its regular files.  A regular
    file is kept with its text and with what [JSON.parse] makes of the text
    ([None] when it throws). *)

Inductive Method := GET | HEAD | POST | PUT | DELETE.

#[global] Instance Method_eq_dec : EqDecision Method.
Proof. solve_decision. Defined.

Record Req := {
  method : Method;
  path : list string;
  req_body : option json
}.

Inductive File :=
| Regular (text : string) (parsed : option json)
| Directory.

Inductive ResBody :=
| B_json (j : json)                                (* res.json(j) *)
| B_file (text : string) (parsed : option json)    (* a file sent by express.static *)
| B_redirect (location : list string)              (* the redirect of express.static *)
| B_not_found.            (* the page of Express for an unhandled request *)

(** A request is answered, or the callback throws outside any handler and
    the process ends. *)
Inductive Outcome :=
| Replied (status : Z) (b : ResBody)
| Crashed.

(** A layer of the application handles the request or passes it on
    ([None], the [next()] of Express).  It gets the files and returns them,
    so that a write would show. *)
Definition Layer : Type := Req -> gmap (list string) File ->
                           option (Outcome * gmap (list string) File).

Definition lower (c : Ascii.ascii) : Ascii.ascii :=
  let n := Ascii.N_of_ascii c in
  if ((65 <=? n) && (n <=? 90))%N then Ascii.ascii_of_N (n + 32) else c.

Fixpoint lowercase (s : string) : string :=
  match s with
  | EmptyString => EmptyString
  | String c rest => String (lower c) (lowercase rest)
  end.

Definition ends_with_slash (p : list string) : bool :=
  match last p with
  | Some segment => String.eqb segment ""
  | None => false
  end.

Definition without_slash (p : list string) : list string :=
  if ends_with_slash p then take (length p - 1) p else p.

(** Express matches the path of a route without regard to case and with or
    without a slash at the end. *)
Definition same_path (route p : list string) : bool :=
  bool_decide (map lowercase route = map lowercase (without_slash p)).

Fixpoint under (mount p : list string) : option (list string) :=
  match mount, p with
  | [], _ => Some p
  | m :: mount', x :: p' =>
      if bool_decide (lowercase m = lowercase x) then under mount' p' else None
  | _ :: _, [] => None
  end.

Definition reads (m : Method) : bool :=
  match m with GET | HEAD => true | _ => false end.

(** A name that begins with a dot (character 46). *)
Definition dotfile (segment : string) : bool :=
  match segment with
  | String c _ => Ascii.eqb c (Ascii.ascii_of_nat 46)
  | EmptyString => false
  end.

(** [app.use(mount, express.static(root))] with the options left at their
    defaults, for a request without conditional or range headers.  Only GET
    and HEAD under the mount are looked at; with [rel] the rest of the path:
    - a name that begins with a dot is ignored ([dotfiles: 'ignore'];
      Express 4 did so for the last name of the path only, and no theorem
      below depends on the difference);
    - a path that ends in a slash is answered with the regular file
      [index.html] of that directory;
    - otherwise a regular file at [root/rel] is sent, and a directory there
      is answered with status 301 and the path with a slash added
      ([redirect: true]).
    Everything else is passed on ([fallthrough: true]). *)
Definition static (mount root : list string) : Layer := fun req files =>
  if reads (method req) then
    match under mount (path req) with
    | Some rel =>
        if existsb dotfile rel then None
        else if ends_with_slash rel then
          match files !! (root ++ without_slash rel ++ ["index.html"]) with
          | Some (Regular text parsed) =>
              Some (Replied 200 (B_file text parsed), files)
          | _ => None
          end
        else
          match files !! (root ++ rel) with
          | Some (Regular text parsed) =>
              Some (Replied 200 (B_file text parsed), files)
          | Some Directory =>
              Some (Replied 301 (B_redirect (path req ++ [""])), files)
          | None => None
          end
    | None => None
    end
  else None.

(** [app.get(route, handler)]; Express answers HEAD through the GET route. *)
Definition get (route : list string)
  (handler : Req -> gmap (list string) File -> Outcome * gmap (list string) File)
  : Layer := fun req files =>
  if reads (method req) && same_path route (path req)
  then Some (handler req files) else None.

(** The handler both [/data] routes share:
    [fs.readFile(file, 'utf8', (err, data) => ...)].  Reading fails when
    there is no such file and when the name is that of a directory. *)
Definition send_json_file (file : list string) (failure : string)
  (req : Req) (files : gmap (list string) File)
  : Outcome * gmap (list string) File :=
  match files !! file with
  | Some (Regular _ (Some j)) => (Replied 200 (B_json j), files)
  | Some (Regular _ None) => (Crashed, files)
  | Some Directory | None =>
      (Replied 500 (B_json (JObj [("error", JStr failure)])), files)
  end.

Fixpoint handle (layers : list Layer) (req : Req) (files : gmap (list string) File)
  : Outcome * gmap (list string) File :=
  match layers with
  | [] => (Replied 404 B_not_found, files)
  | layer :: rest =>
      match layer req files with
      | Some r => r
      | None => handle rest req files
      end
  end.

Definition questions_file (dirname : list string) : list string :=
  dirname ++ ["data"; "questions.json"].

Definition results_file (dirname : list string) : list string :=
  dirname ++ ["backend"; "data"; "users_results.json"].

(** The application on port 8000, the one [API_URL] of the client names;
    [dirname] is its [__dirname]. *)
Definition app (dirname : list string) : list Layer :=
  [ static [] (dirname ++ ["frontend"]);
    get ["data"; "questions"]
        (send_json_file (questions_file dirname) "Failed to load questions");
    get ["data"; "users_results"]
        (send_json_file (results_file dirname) "Failed to load results") ].

(** [path.join(__dirname, '../frontend')] *)
Definition sibling_frontend (dirname : list string) : list string :=
  match dirname with
  | [] => [".."; "frontend"]
  | _ => take (length dirname - 1) dirname ++ ["frontend"]
  end.

(** The application of [backend/server.js]. *)
Definition backend_app (dirname : list string) : list Layer :=
  [ static ["sber_trajectory_bot"] (sibling_frontend dirname);
    get ["sber_trajectory_bot"; "api"; "questions"]
        (fun _ files => (Replied 200 (B_json (JObj [("questions", JArr [])])), files)) ].

(** ** The Result Store contract, as the client uses it

    A reply of the form [{ completed: boolean }]. *)
Definition completed_reply (o : Outcome) : option bool :=
  match o with
  | Replied 200 (B_json (JObj [("completed", JBool b)])) => Some b
  | _ => None
  end.

(** Whether the record set holds a record of that user. *)
Definition has_record (userId : Z) (records : json) : bool :=
  match records with
  | JArr items =>
      existsb (fun r => match property "telegram_user_id" r with
                        | Some (Some (JNum n)) => n =? userId
                        | _ => false
                        end) items
  | _ => false
  end.

(** The contract, from the words of the specification, for an application
    [layers] that keeps the record set in the file [results] and is reached
    under the prefix [base]: the lookup answers [{ completed: b }] with [b]
    telling whether the record set has a record of the user, and the submit
    leaves the record set with the posted record appended. *)
Definition lookup_contract (layers : list Layer) (base results : list string)
  : Prop :=
  forall files text records (userId : Z),
    files !! results = Some (Regular text (Some records)) ->
    completed_reply
      (handle layers {| method := GET;
                        path := base ++ ["check-user"; pretty userId];
                        req_body := None |} files).1
    = Some (has_record userId records).

Definition submit_contract (layers : list Layer) (base results : list string)
  : Prop :=
  forall files text items record,
    files !! results = Some (Regular text (Some (JArr items))) ->
    exists text',
      (handle layers {| method := POST;
                        path := base ++ ["submit"];
                        req_body := Some record |} files).2 !! results
      = Some (Regular text' (Some (JArr (items ++ [record])))).

End Server.

(** ** The client against the server *)

Module Wire.

(** What [fetch] gets for a GET: a reply with status 301 is followed to the
    path it names, with the same method; any other reply is the one the
    promise resolves with. *)
Definition fetched (layers : list Server.Layer) (req : Server.Req)
  (files : gmap (list string) Server.File) : Server.Outcome :=
  match (Server.handle layers req files).1 with
  | Server.Replied _ (Server.B_redirect location) =>
      (Server.handle layers
         {| Server.method := Server.method req; Server.path := location;
            Server.req_body := Server.req_body req |} files).1
  | o => o
  end.

(** [await fetch(url)] followed by [await response.json()], against what
    the server does with the request: [fetch] resolves whatever the status
    is and [json()] parses the body that was sent (the 404 page and the
    redirect page of Express are not JSON); when the process ends without a
    reply the request rejects. *)
Definition response_json (o : Server.Outcome) : Client.FetchResult json :=
  match o with
  | Server.Replied _ (Server.B_json j) => Client.Body j
  | Server.Replied _ (Server.B_file _ (Some j)) => Client.Body j
  | Server.Replied _ (Server.B_file _ None) => Client.Unreadable
  | Server.Replied _ (Server.B_redirect _) => Client.Unreadable
  | Server.Replied _ Server.B_not_found => Client.Unreadable
  | Server.Crashed => Client.Rejected
  end.

(** [fetch(`${API_URL}/check-user/${userId}`)], with [segment] the text of
    the identifier. *)
Definition check_user_request (segment : string) : Server.Req :=
  {| Server.method := Server.GET;
     Server.path := ["data"; "check-user"; segment];
     Server.req_body := None |}.

End Wire.

(** ** Concrete sessions, used to run the model *)

Module Scenario.
Import Client.

(** No user from the platform: a guest. *)
Definition guest : Telegram := {| tg_user_id := None; tg_username := None |}.

Definition member : Telegram :=
  {| tg_user_id := Some 42; tg_username := Some "kate" |}.

Definition question (id : Z) : Question :=
  {| q_id := id; q_question := "2 + 2 = ?"; q_options := ["3"; "4"] |}.

Definition one_question : Catalog :=
  {| statistics := [question 1]; probability := []; ml := [] |}.

(** The clock reads [t] (milliseconds) and every draw is [r]. *)
Definition at_time (t : Z) (r : random01) : Env :=
  {| now := t; random := fun _ => r |}.

Definition not_completed : json := JObj [("completed", JBool false)].
Definition completed : json := JObj [("completed", JBool true)].

(** A results file with the record of user 42. *)
Definition record_of_42 : json :=
  JObj [ ("telegram_user_id", JNum 42); ("username", JStr "kate");
         ("answers", JArr [JNum 1]); ("time_spent", JNum 6);
         ("questions", JArr [JNum 1]) ].

Definition results_with_42 : Server.File :=
  Server.Regular "[{...}]" (Some (JArr [record_of_42])).

(** The disk of the server on port 8000 ([__dirname] the root): an empty
    [frontend] directory and the results file. *)
Definition disk : gmap (list string) Server.File :=
  {[ ["frontend"] := Server.Directory;
     ["backend"] := Server.Directory;
     ["backend"; "data"] := Server.Directory;
     Server.results_file [] := results_with_42 ]}.

(** A catalog file, and one that is not JSON. *)
Definition catalog_json : json :=
  JObj [ ("statistics", JArr []); ("probability", JArr []); ("ml", JArr []) ].

Definition with_catalog : gmap (list string) Server.File :=
  {[ ["frontend"] := Server.Directory;
     ["data"] := Server.Directory;
     Server.questions_file [] := Server.Regular "{...}" (Some catalog_json) ]}.

Definition with_broken_catalog : gmap (list string) Server.File :=
  {[ ["frontend"] := Server.Directory;
     ["data"] := Server.Directory;
     Server.questions_file [] := Server.Regular "{" None ]}.

(** Page load up to the welcome screen. *)
Definition to_welcome : list (Env * Event) :=
  [ (at_time 1500 draw_zero, Settles 0 Slept);
    (at_time 1600 draw_zero, Settles 0 (Check_response (Body not_completed))) ].

(** The start button is clicked twice before the first response arrives;
    the second response arrives after the first tick of the countdown. *)
Definition double_start : list (Env * Event) :=
  to_welcome ++
  [ (at_time 2000 draw_zero, Click_start);
    (at_time 2100 draw_zero, Click_start);
    (at_time 2500 draw_zero, Settles 0 (Questions_response (Body one_question)));
    (at_time 3500 draw_zero, Interval_fires 1);
    (at_time 3600 draw_zero, Settles 0 (Questions_response (Body one_question))) ].

(** After [double_start] both intervals fire once a second; no option is
    ever clicked.  [n] seconds of that. *)
Fixpoint both_tick (n : nat) : list (Env * Event) :=
  match n with
  | O => []
  | S n' => (at_time 4000 draw_zero, Interval_fires 2)
            :: (at_time 4000 draw_zero, Interval_fires 1)
            :: both_tick n'
  end.

(** The countdown of [double_start] runs down to zero: 899 is left after
    it, 449 seconds of both intervals leave 1, and the interval kept in
    [timerInterval] takes the last second. *)
Definition double_start_to_zero : list (Env * Event) :=
  double_start ++ both_tick 449 ++ [(at_time 4000 draw_zero, Interval_fires 2)].

(** [n] more seconds of the first interval. *)
Definition first_interval_ticks (n : nat) : list (Env * Event) :=
  replicate n (at_time 5000 draw_zero, Interval_fires 1%nat).

(** One start, one question; its option button is clicked, and clicked once
    more while the submit call is still awaited. *)
Definition late_click : list (Env * Event) :=
  to_welcome ++
  [ (at_time 2000 draw_zero, Click_start);
    (at_time 2500 draw_zero, Settles 0 (Questions_response (Body one_question)));
    (at_time 9000 draw_half, Click_option 1);
    (at_time 9100 draw_half, Click_option 1) ].

(** One start; the question is on display. *)
Definition start_once : list (Env * Event) :=
  to_welcome ++
  [ (at_time 2000 draw_zero, Click_start);
    (at_time 2500 draw_zero, Settles 0 (Questions_response (Body one_question))) ].

Definition on_question : State :=
  default (initial guest) (run start_once (initial guest)).

(** The start button has been clicked and the catalog is awaited. *)
Definition awaiting_questions : State :=
  default (initial guest)
          (run (to_welcome ++ [(at_time 2000 draw_zero, Click_start)])
               (initial guest)).

(** A guest answers the one question. *)
Definition guest_session : list (Env * Event) :=
  to_welcome ++
  [ (at_time 2000 draw_zero, Click_start);
    (at_time 2500 draw_zero, Settles 0 (Questions_response (Body one_question)));
    (at_time 9000 draw_half, Click_option 1) ].

(** Three questions, one of each topic. *)
Definition three_questions : Catalog :=
  {| statistics := [question 2]; probability := [question 5];
     ml := [question 9] |}.

Definition empty_catalog : Catalog :=
  {| statistics := []; probability := []; ml := [] |}.

(** The quiz of [three_questions] has just started. *)
Definition on_first_of_three : State :=
  startQuiz_after_fetch (at_time 2500 draw_half) (Body three_questions)
                        (resume 0 awaiting_questions).

(** The last second of the countdown of [on_question]. *)
Definition last_second : State :=
  with_vars (fun v =>
    {| currentQuestionIndex := currentQuestionIndex v;
       allQuestions := allQuestions v; userAnswers := userAnswers v;
       startTime := startTime v; timerInterval := timerInterval v;
       timeRemaining := 1 |}) on_question.

(** The session of [guest_session], for the platform user [member]. *)
Definition member_done : State :=
  default (initial member) (run guest_session (initial member)).

(** The three questions of [on_first_of_three] get the answers 1, 0, 1. *)
Definition three_clicks : list (Env * nat) :=
  [ (at_time 5000 draw_zero, 1%nat); (at_time 6000 draw_half, 0%nat);
    (at_time 7000 draw_max, 1%nat) ].

(** A site whose [frontend] directory has a file named like the catalog
    route. *)
Definition shadow_file : Server.File := Server.Regular "<html>" None.

Definition site : gmap (list string) Server.File :=
  {[ ["frontend"] := Server.Directory;
     ["frontend"; "data"] := Server.Directory;
     ["frontend"; "data"; "questions"] := shadow_file ]}.

Definition get_request (p : list string) : Server.Req :=
  {| Server.method := Server.GET; Server.path := p; Server.req_body := None |}.

(** The state [double_start] ends in. *)
Definition after_double_start : State :=
  default (initial guest) (run double_start (initial guest)).

(** The start button is clicked twice before any response, and the first
    request for the catalog rejects. *)
Definition double_start_rejected : list (Env * Event) :=
  to_welcome ++
  [ (at_time 2000 draw_zero, Click_start);
    (at_time 2100 draw_zero, Click_start);
    (at_time 2500 draw_zero, Settles 0 (Questions_response Rejected)) ].

End Scenario.

(** * Properties *)

Import Client.

(** ** Math.random and shuffleArray *)

Lemma floor_mul_lt (r : random01) (n : nat) :
  (0 < n)%nat -> (floor_mul r n < n)%nat.
Proof.
  intros Hn. unfold floor_mul.
  destruct r as [k Hk]; simpl.
  apply N.ltb_lt in Hk.
  assert (Hs : (0 < unit_scale)%N) by reflexivity.
  assert (Hq : (k * N.of_nat n / unit_scale < N.of_nat n)%N).
  { apply N.Div0.div_lt_upper_bound. nia. }
  lia.
Qed.

Section Swap.
Context {A : Type}.
Implicit Types (a : list A) (i j : nat).

Lemma swap_length a i j : length (swap a i j) = length a.
Proof.
  unfold swap. destruct (a !! i), (a !! j); trivial.
  by rewrite !length_insert.
Qed.

Lemma insert_head_perm a j (x y : A) :
  a !! j = Some y -> y :: <[j := x]> a ≡ₚ x :: a.
Proof.
  revert j. induction a as [|z a IH]; intros [|j] Hj; simplify_eq/=.
  - apply Permutation_swap.
  - rewrite (Permutation_swap z y), (IH j Hj). apply Permutation_swap.
Qed.

Lemma swap_perm a i j : swap a i j ≡ₚ a.
Proof.
  unfold swap.
  destruct (a !! i) as [x|] eqn:Hi; [|done].
  destruct (a !! j) as [y|] eqn:Hj; [|done].
  revert i j Hi Hj.
  induction a as [|z a IH]; intros [|i] [|j] Hi Hj; simplify_eq/=.
  - done.
  - by apply insert_head_perm.
  - by apply insert_head_perm.
  - f_equiv. by apply IH.
Qed.

(** Inside the array [swap] is the exchange of the two cells. *)
Lemma swap_in_range a i j :
  (i < length a)%nat -> (j < length a)%nat ->
  exists x y, a !! i = Some x /\ a !! j = Some y /\
              swap a i j = <[j := x]> (<[i := y]> a).
Proof.
  intros Hi Hj.
  destruct (lookup_lt_is_Some_2 a i Hi) as [x Hx].
  destruct (lookup_lt_is_Some_2 a j Hj) as [y Hy].
  exists x, y. unfold swap. by rewrite Hx, Hy.
Qed.

Lemma shuffle_loop_perm rnd i a : shuffle_loop rnd i a ≡ₚ a.
Proof.
  revert rnd a. induction i as [|i IH]; intros rnd a; simpl; [done|].
  rewrite IH. apply swap_perm.
Qed.

(** Started inside the array, the loop reads and writes only cells of
    the array. *)
Lemma shuffle_loop_in_range rnd i a :
  (i < length a)%nat -> shuffle_checked rnd i a = Some (shuffle_loop rnd i a).
Proof.
  revert rnd a. induction i as [|i IH]; intros rnd a Hi; simpl; [done|].
  assert (Hj : (floor_mul (rnd O) (S (i + 1)) < length a)%nat).
  { pose proof (floor_mul_lt (rnd O) (S (i + 1))). lia. }
  destruct (swap_in_range a (S i) _ Hi Hj) as (x & y & Hx & Hy & ->).
  rewrite Hx; simpl. rewrite Hy; simpl.
  apply IH. rewrite !length_insert. lia.
Qed.

Lemma shuffleArray_in_range rnd a :
  shuffle_checked rnd (length a - 1) a = Some (shuffleArray rnd a).
Proof.
  destruct a as [|x a]; [done|].
  apply shuffle_loop_in_range. simpl. lia.
Qed.
End Swap.

(** C5: for every input array and every sequence of results of
    [Math.random], [shuffleArray] returns a permutation of its input: the
    same elements with the same multiplicities, and so the same length. *)
Theorem shuffleArray_permutation {A} (rnd : nat -> random01) (array : list A) :
  shuffleArray rnd array ≡ₚ array /\
  length (shuffleArray rnd array) = length array.
Proof.
  assert (H : shuffleArray rnd array ≡ₚ array) by apply shuffle_loop_perm.
  split; [exact H | by rewrite H].
Qed.

(** ** getTopicName *)

(** C8: the topic label depends on the identifier alone; 1, 2, 3 give the
    statistics label, 4, 5, 6 the probability label, every identifier from 7
    on the machine-learning label; the three labels differ and every
    identifier gets one of them. *)
Theorem getTopicName_buckets :
  (forall id, In id [1; 2; 3] -> getTopicName id = "📊 Статистика") /\
  (forall id, In id [4; 5; 6] -> getTopicName id = "🎲 Теория вероятностей") /\
  (forall id, 7 <= id -> getTopicName id = "🤖 Machine Learning") /\
  NoDup ["📊 Статистика"; "🎲 Теория вероятностей"; "🤖 Machine Learning"] /\
  (forall id, getTopicName id ∈
     ["📊 Статистика"; "🎲 Теория вероятностей"; "🤖 Machine Learning"]).
Proof.
  repeat split.
  - intros id [<-|[<-|[<-|[]]]]; reflexivity.
  - intros id [<-|[<-|[<-|[]]]]; reflexivity.
  - intros id Hid. unfold getTopicName.
    destruct (Z.leb_spec id 3); [lia|]. destruct (Z.leb_spec id 6); [lia|]. done.
  - apply (bool_decide_unpack _). by vm_compute.
  - intros id. unfold getTopicName.
    destruct (id <=? 3); [|destruct (id <=? 6)]; set_solver.
Qed.

(** ** The trace of a handler *)

Section Trace.
Implicit Types (s : State) (e : Effect).

Lemma finish_calls_snoc s s' e :
  trace (browser s') = trace (browser s) ++ [e] ->
  finish_calls s' = (finish_calls s + if is_finish e then 1 else 0)%nat.
Proof.
  unfold finish_calls. intros ->.
  rewrite filter_app, length_app. f_equal.
  destruct e; reflexivity.
Qed.

Lemma finishQuiz_vars env s : vars (finishQuiz env s) = vars s.
Proof. reflexivity. Qed.

Lemma finishQuiz_trace env s :
  exists r, trace (browser (finishQuiz env s)) =
            trace (browser s)
            ++ [E_finish; E_clearInterval (timerInterval (vars s));
                E_fetch (POST_submit r)]
            /\ telegram_user_id r = current_userId (tg (browser s)) (random env O)
            /\ answers r = userAnswers (vars s)
            /\ questions r = map q_id (allQuestions (vars s)).
Proof.
  eexists. split.
  - unfold finishQuiz; simpl. rewrite <- !app_assoc. reflexivity.
  - repeat split.
Qed.

Lemma finishQuiz_finish_calls env s :
  finish_calls (finishQuiz env s) = S (finish_calls s).
Proof.
  destruct (finishQuiz_trace env s) as (r & Htr & _).
  unfold finish_calls. rewrite Htr, filter_app, length_app. simpl. lia.
Qed.

Lemma displayQuestion_vars r s : vars (uncaught (displayQuestion r s)) = vars s.
Proof. unfold displayQuestion. by destruct (_ !! _). Qed.

Lemma displayQuestion_browser r s :
  browser (uncaught (displayQuestion r s)) = browser s.
Proof. unfold displayQuestion. by destruct (_ !! _). Qed.
End Trace.

(** ** selectAnswer *)

(** C4: in a state with a question on display, with index [i] and answers
    [a], selecting an answer appends exactly that one entry to [a] and makes
    the index [i + 1]; [finishQuiz] is entered if and only if the new index
    is the number of questions, and then once. *)
Theorem selectAnswer_appends_and_advances
  (answerIndex : nat) (env : Env) (s : State) :
  in_progress s = true ->
  let s' := selectAnswer answerIndex env s in
  userAnswers (vars s') = userAnswers (vars s) ++ [answerIndex] /\
  length (userAnswers (vars s')) = S (length (userAnswers (vars s))) /\
  currentQuestionIndex (vars s') = S (currentQuestionIndex (vars s)) /\
  allQuestions (vars s') = allQuestions (vars s) /\
  (finish_calls s' <> finish_calls s <->
   currentQuestionIndex (vars s') = length (allQuestions (vars s'))) /\
  (finish_calls s' = finish_calls s \/ finish_calls s' = S (finish_calls s)).
Proof.
  intros Hs s'. subst s'.
  apply andb_prop in Hs as [_ Hlt]. apply Nat.ltb_lt in Hlt.
  unfold selectAnswer. cbn [vars with_vars currentQuestionIndex allQuestions].
  destruct (Nat.ltb_spec (S (currentQuestionIndex (vars s)))
                         (length (allQuestions (vars s)))) as [Hnext|Hlast].
  - rewrite displayQuestion_vars. unfold finish_calls.
    rewrite displayQuestion_browser. simpl.
    rewrite length_app. simpl. repeat split; try lia; auto.
  - rewrite finishQuiz_vars, finishQuiz_finish_calls. simpl.
    rewrite length_app. simpl. unfold finish_calls. simpl.
    repeat split; try lia; auto.
Qed.

(** ** The error screens *)

(** On the error screen, with no interval alive and no call awaited, the
    event loop has nothing left to run. *)
Lemma error_screen_terminal (s : State) :
  active (page s) = Some S_error ->
  intervals (browser s) = [] ->
  pending (browser s) = [] ->
  forall env e, step env e s = None.
Proof.
  intros Ha Hi Hp env [| answerIndex | id | k r]; simpl.
  - rewrite Ha. reflexivity.
  - rewrite Ha. reflexivity.
  - rewrite Hi. reflexivity.
  - rewrite Hp. reflexivity.
Qed.

(** When the request for the catalog rejects, that [startQuiz] shows the
    error screen with the fixed message about loading; it starts no timer,
    displays no question and leaves the variables alone.  With nothing else
    awaited the page stays on the error screen for good; with a second
    [startQuiz] awaited it does not ([rejected_start_then_quiz]). *)
Theorem startQuiz_rejected (env : Env) (k : nat) (s : State) :
  pending (browser s) !! k = Some P_questions ->
  exists s',
    step env (Settles k (Questions_response Rejected)) s = Some s' /\
    active (page s') = Some S_error /\
    error_message (page s') = Some could_not_load /\
    vars s' = vars s /\
    intervals (browser s') = intervals (browser s) /\
    trace (browser s') = trace (browser s) ++ [E_screen S_error] /\
    question_text (page s') = question_text (page s) /\
    option_buttons (page s') = option_buttons (page s) /\
    (pending (browser s) = [P_questions] -> intervals (browser s) = [] ->
     forall env' e, step env' e s' = None).
Proof.
  intros Hk. eexists. split.
  { simpl. rewrite Hk. reflexivity. }
  repeat split.
  intros Hp Hi. apply error_screen_terminal; simpl; [done|done|].
  rewrite Hp in Hk |- *. destruct k as [|k]; [done|].
  by rewrite lookup_cons in Hk.
Qed.

(** C6: when the pre-check answers with a true [completed], [init] goes
    from the loading state straight to the error screen with the fixed
    message about the finished test: the only request made is the pre-check,
    the only screen shown is the error screen, and the event loop has
    nothing left to run (no welcome screen, no quiz). *)
Theorem init_already_completed
  (t : Telegram) (env1 env2 : Env) (data : json) (flag : option json) :
  property "completed" data = Some flag ->
  truthy flag = true ->
  exists s',
    run [ (env1, Settles 0 Slept);
          (env2, Settles 0 (Check_response (Body data))) ] (initial t) = Some s' /\
    active (page s') = Some S_error /\
    error_message (page s') = Some already_completed /\
    trace (browser s') =
      [ E_fetch (GET_check_user (current_userId t (random env1 O)));
        E_screen S_error ] /\
    vars s' = vars (initial t) /\
    forall env e, step env e s' = None.
Proof.
  intros Hdata Hflag. eexists. split.
  { simpl. rewrite Hdata, Hflag. reflexivity. }
  repeat split.
  apply error_screen_terminal; reflexivity.
Qed.

(** ** The guest identifier *)

(** C10: when the platform gives no user identifier, [init] and
    [finishQuiz] each make the guest identifier from a draw of their own:
    the identifier of the pre-check is the first draw of [init], whatever
    the state, so two runs of [init] from one state ask about different
    identifiers when their draws differ; the identifier of the submitted
    record is the first draw of [finishQuiz]; and there is a session in
    which the submitted identifier is not the one the pre-check asked
    about. *)
Theorem guest_identifier_redrawn (t : Telegram) :
  tg_user_id t = None ->
  (forall env s, tg (browser s) = t ->
     checked (init_after_sleep env s) = checked s ++ [Guest (random env O)]) /\
  (forall env1 env2 s, tg (browser s) = t ->
     random env1 O <> random env2 O ->
     checked (init_after_sleep env1 s) <> checked (init_after_sleep env2 s)) /\
  (forall env s, tg (browser s) = t ->
     exists r, submitted (finishQuiz env s) = submitted s ++ [r] /\
               telegram_user_id r = Guest (random env O)) /\
  (exists s' u r,
     run Scenario.guest_session (initial t) = Some s' /\
     checked s' = [u] /\ submitted s' = [r] /\ telegram_user_id r <> u).
Proof.
  intros Ht.
  assert (Hid : forall r, current_userId t r = Guest r).
  { intros r. unfold current_userId. by rewrite Ht. }
  split; [|split; [|split]].
  - intros env s <-. unfold checked, init_after_sleep; simpl.
    rewrite omap_app; simpl. by rewrite Hid.
  - intros env1 env2 s <- Hne. unfold checked, init_after_sleep; simpl.
    rewrite !omap_app; simpl. rewrite !Hid.
    intros Heq. apply app_inv_head in Heq. congruence.
  - intros env s <-.
    destruct (finishQuiz_trace env s) as (r & Htr & Hr & _).
    exists r. split; [|by rewrite Hr, Hid].
    unfold submitted. rewrite Htr, omap_app. reflexivity.
  - destruct t as [uid uname]; simpl in Ht; subst uid.
    eexists _, _, _. split; [vm_compute; reflexivity|].
    split; [vm_compute; reflexivity|]. split; [vm_compute; reflexivity|].
    cbn [telegram_user_id]. intros [= Hbits].
Qed.

(** * The server *)

Section ServerFacts.
Import Server.
Implicit Types (req : Req) (files : gmap (list string) File).

Lemma static_keeps_files mount root req files r :
  static mount root req files = Some r -> r.2 = files.
Proof.
  unfold static. destruct (reads (method req)); [|done].
  destruct (under mount (path req)) as [rel|]; [|done].
  destruct (existsb dotfile rel); [done|].
  destruct (ends_with_slash rel).
  - destruct (files !! _) as [[text parsed|]|]; [|done|done].
    by intros [= <-].
  - destruct (files !! _) as [[text parsed|]|]; [| |done]; by intros [= <-].
Qed.

Lemma send_json_file_keeps_files file failure req files :
  (send_json_file file failure req files).2 = files.
Proof.
  unfold send_json_file.
  by destruct (files !! file) as [[text [j|]|]|].
Qed.

Lemma get_not_read route handler req files :
  reads (method req) = false -> get route handler req files = None.
Proof. unfold get. by intros ->. Qed.

Lemma static_not_read mount root req files :
  reads (method req) = false -> static mount root req files = None.
Proof. unfold static. by intros ->. Qed.

(** The static layer passes on a request for a name, without a slash at
    the end, that the disk does not have under the root. *)
Lemma static_passes_on_missing mount root req files rel :
  under mount (path req) = Some rel ->
  ends_with_slash rel = false ->
  files !! (root ++ rel) = None ->
  static mount root req files = None.
Proof.
  unfold static. intros -> -> ->.
  destruct (reads (method req)); [|done]. by destruct (existsb dotfile rel).
Qed.

Lemma get_keeps_files route file failure req files r :
  get route (send_json_file file failure) req files = Some r -> r.2 = files.
Proof.
  unfold get. destruct (_ && _); [|done].
  intros [= <-]. apply send_json_file_keeps_files.
Qed.

Lemma other_path_not_routed route handler req files :
  map lowercase route <> map lowercase (without_slash (path req)) ->
  get route handler req files = None.
Proof.
  intros Hne. unfold get, same_path.
  rewrite (bool_decide_eq_false_2 _ Hne). by rewrite andb_false_r.
Qed.

Lemma same_path_routes route p :
  same_path route p = true ->
  map lowercase route = map lowercase (without_slash p).
Proof. unfold same_path. apply bool_decide_eq_true_1. Qed.

(** No route of the application on port 8000 has the path of the lookup,
    under [/data] or not. *)
Lemma check_user_not_routed handler req files userId route :
  path req = ["data"; "check-user"; userId]
  \/ path req = ["check-user"; userId] ->
  route = ["data"; "questions"] \/ route = ["data"; "users_results"] ->
  get route handler req files = None.
Proof.
  intros Hpath Hroute. apply other_path_not_routed.
  unfold without_slash, ends_with_slash.
  destruct Hpath as [-> | ->], Hroute as [-> | ->]; simpl;
    destruct (String.eqb userId ""); simpl; intros [=].
Qed.

Lemma last_segment_no_slash (p : list string) (segment : string) :
  segment <> "" -> ends_with_slash (p ++ [segment]) = false.
Proof.
  intros Hne. unfold ends_with_slash. rewrite last_snoc.
  by apply String.eqb_neq.
Qed.
End ServerFacts.


(** The application of [backend/server.js] writes no file either and has
    no route beyond its one GET. *)
Lemma backend_app_serves_files_only
  (dirname : list string) (req : Server.Req)
  (files : gmap (list string) Server.File) :
  let r := Server.handle (Server.backend_app dirname) req files in
  r.2 = files /\
  (Server.reads (Server.method req) = false ->
   r.1 = Server.Replied 404 Server.B_not_found).
Proof.
  intros r. subst r. unfold Server.backend_app. cbn [Server.handle]. split.
  - destruct (Server.static _ _ req files) as [r|] eqn:Hs.
    { by apply static_keeps_files in Hs. }
    unfold Server.get. by destruct (_ && _).
  - intros Hm. by rewrite static_not_read, get_not_read.
Qed.


(** * The quiz state across events *)

Lemma startQuiz_after_fetch_vars env data s :
  let s' := startQuiz_after_fetch env (Body data) s in
  currentQuestionIndex (vars s') = O /\
  userAnswers (vars s') = [] /\
  startTime (vars s') = Some (now env) /\
  timeRemaining (vars s') = timeRemaining (vars s).
Proof.
  unfold startQuiz_after_fetch, displayQuestion; simpl.
  destruct (_ !! _); repeat split.
Qed.

Lemma startQuiz_after_fetch_failed_vars env (resp : FetchResult Catalog) s :
  (forall data, resp <> Body data) ->
  vars (startQuiz_after_fetch env resp s) = vars s.
Proof. destruct resp as [| |data]; intros H; [done|done|by destruct (H data)]. Qed.

Lemma init_after_check_vars resp s : vars (init_after_check resp s) = vars s.
Proof.
  unfold init_after_check.
  destruct resp as [| |data]; try done.
  destruct (property _ data) as [flag|]; [|done]. by destruct (truthy flag).
Qed.

Lemma tick_answers env s :
  userAnswers (vars (tick env s)) = userAnswers (vars s) /\
  currentQuestionIndex (vars (tick env s)) = currentQuestionIndex (vars s).
Proof. unfold tick; simpl. by destruct (_ <=? 0). Qed.

Lemma selectAnswer_answers answerIndex env s :
  userAnswers (vars (selectAnswer answerIndex env s))
    = userAnswers (vars s) ++ [answerIndex] /\
  currentQuestionIndex (vars (selectAnswer answerIndex env s))
    = S (currentQuestionIndex (vars s)).
Proof.
  unfold selectAnswer; simpl. destruct (_ <? _)%nat.
  - by rewrite displayQuestion_vars.
  - by rewrite finishQuiz_vars.
Qed.

Lemma step_answers_match_index env e s s' :
  answers_match_index s -> step env e s = Some s' -> answers_match_index s'.
Proof.
  unfold answers_match_index. intros Hs.
  destruct e as [| answerIndex | id | k r]; simpl.
  - destruct (bool_decide _); intros [= <-]; exact Hs.
  - destruct (_ && _); intros [= <-].
    destruct (selectAnswer_answers answerIndex env s) as [-> ->].
    rewrite length_app; simpl. lia.
  - destruct (bool_decide _); intros [= <-].
    destruct (tick_answers env s) as [-> ->]. exact Hs.
  - destruct (pending (browser s) !! k) as [[| | |timeSpent]|]; [| | | |done];
      destruct r as [|resp|resp|ok]; intros [= <-]; try exact Hs.
    + by rewrite init_after_check_vars.
    + destruct resp as [| |data]; try exact Hs.
      destruct (startQuiz_after_fetch_vars env data (resume k s))
        as (-> & -> & _). reflexivity.
Qed.

(** In every state the event loop reaches, the answers are as many as the
    index says. *)
Lemma run_answers_match_index events s s' :
  answers_match_index s -> run events s = Some s' -> answers_match_index s'.
Proof.
  revert s. induction events as [|[env e] events IH]; intros s Hs; simpl.
  - by intros [= <-].
  - destruct (step env e s) as [s1|] eqn:Hstep; [|done].
    apply IH. by eapply step_answers_match_index.
Qed.

(** With the one interval of a single start alive, the tick that takes the
    last second enters [finishQuiz] once and leaves no interval to fire. *)
Lemma tick_to_zero_single_interval env id s :
  timerInterval (vars s) = Some id ->
  intervals (browser s) = [id] ->
  timeRemaining (vars s) = 1 ->
  finish_calls (tick env s) = S (finish_calls s) /\
  intervals (browser (tick env s)) = [] /\
  forall env' id', step env' (Interval_fires id') (tick env s) = None.
Proof.
  intros Ht Hi Hr.
  assert (Hlive : intervals (browser (tick env s)) = []).
  { unfold tick; simpl. rewrite Hr; simpl. rewrite Ht; simpl. rewrite Hi.
    rewrite filter_cons_False by (intros H; by apply H). reflexivity. }
  split; [|split; [exact Hlive|]].
  - unfold tick; simpl. rewrite Hr; simpl.
    rewrite finishQuiz_finish_calls. f_equal.
    unfold finish_calls; simpl. rewrite filter_app, length_app; simpl. lia.
  - intros env' id'. simpl. rewrite Hlive. reflexivity.
Qed.

(** C2, the code at the failing input: the start button is clicked twice
    before the first catalog arrives and the second catalog arrives after
    the first tick.  On that second entry into the quiz the index is 0 and
    the answers are empty, but the countdown stands at 899, not 900:
    [startQuiz] never assigns [timeRemaining]. *)
Theorem startQuiz_second_start_keeps_countdown :
  exists s,
    run Scenario.double_start (initial Scenario.guest) = Some s /\
    in_progress s = true /\
    currentQuestionIndex (vars s) = O /\
    userAnswers (vars s) = [] /\
    timeRemaining (vars s) = 899 /\
    timeRemaining (vars s) <> QUIZ_TIME.
Proof.
  eexists. split; [vm_compute; reflexivity|].
  repeat split. discriminate.
Qed.

(** C3, the code at the failing input: after the double start the first
    interval is no longer the one in [timerInterval].  When the countdown
    reaches zero [finishQuiz] is entered and the second interval cancelled,
    but the first one stays alive; with no answer selected, its next two
    ticks enter [finishQuiz] a second and a third time. *)
Theorem leaked_interval_finishes_again :
  exists s0 s2,
    run Scenario.double_start_to_zero (initial Scenario.guest) = Some s0 /\
    timeRemaining (vars s0) = 0 /\
    finish_calls s0 = 1%nat /\
    intervals (browser s0) = [1%nat] /\
    run (Scenario.first_interval_ticks 2) s0 = Some s2 /\
    finish_calls s2 = 3%nat /\
    length (submitted s2) = 3%nat /\
    intervals (browser s2) = [1%nat] /\
    userAnswers (vars s2) = [].
Proof.
  eexists _, _. split; [vm_compute; reflexivity|].
  split; [reflexivity|]. split; [reflexivity|]. split; [reflexivity|].
  split; [vm_compute; reflexivity|].
  repeat split.
Qed.

(** C9, the code at the failing input: one question; its option button is
    clicked, and clicked again while the submit call is awaited and the quiz
    screen still shows.  The index and the number of answers are then 2 with
    1 question, and the second submitted record has 2 answers for 1
    question. *)
Theorem late_click_overlong_answers :
  exists s r1 r2,
    run Scenario.late_click (initial Scenario.guest) = Some s /\
    length (allQuestions (vars s)) = 1%nat /\
    currentQuestionIndex (vars s) = 2%nat /\
    length (userAnswers (vars s)) = 2%nat /\
    submitted s = [r1; r2] /\
    length (answers r1) = 1%nat /\ length (questions r1) = 1%nat /\
    length (answers r2) = 2%nat /\ length (questions r2) = 1%nat.
Proof.
  eexists _, _, _. split; [vm_compute; reflexivity|].
  split; [reflexivity|]. split; [reflexivity|]. split; [reflexivity|].
  split; [vm_compute; reflexivity|].
  repeat split.
Qed.

(** C7, the code at the failing input: the start button is clicked twice
    before any response; the first request for the catalog rejects and the
    second one succeeds.  [startQuiz] shows the error screen with the
    message about loading, and then, on the second response, the quiz
    screen: an interval is started and the question is on display. *)
Theorem rejected_start_then_quiz :
  exists s1 s2,
    run Scenario.double_start_rejected (initial Scenario.guest) = Some s1 /\
    active (page s1) = Some S_error /\
    error_message (page s1) = Some could_not_load /\
    intervals (browser s1) = [] /\
    step (Scenario.at_time 3600 draw_zero)
         (Settles 0 (Questions_response (Body Scenario.one_question))) s1
      = Some s2 /\
    active (page s2) = Some S_quiz /\
    in_progress s2 = true /\
    intervals (browser s2) = [1%nat] /\
    question_text (page s2) = Some "2 + 2 = ?".
Proof.
  eexists _, _. split; [vm_compute; reflexivity|].
  split; [reflexivity|]. split; [reflexivity|]. split; [reflexivity|].
  split; [vm_compute; reflexivity|].
  repeat split.
Qed.

(** * The theorems at concrete inputs *)

Lemma selectAnswer_appends_and_advances_witness :
  in_progress Scenario.on_question = true /\
  let s' := selectAnswer 1 (Scenario.at_time 9000 draw_half) Scenario.on_question in
  userAnswers (vars s') = userAnswers (vars Scenario.on_question) ++ [1%nat] /\
  currentQuestionIndex (vars s') = 1%nat /\
  finish_calls s' = 1%nat.
Proof.
  assert (H : in_progress Scenario.on_question = true) by (vm_compute; reflexivity).
  split; [exact H|].
  pose proof (selectAnswer_appends_and_advances
                1%nat (Scenario.at_time 9000 draw_half) Scenario.on_question H)
    as (Ha & _ & Hi & _ & _ & _).
  split; [exact Ha|]. split; [exact Hi|]. vm_compute; reflexivity.
Defined.

Lemma startQuiz_rejected_witness :
  pending (browser Scenario.awaiting_questions) !! O = Some P_questions /\
  exists s',
    step (Scenario.at_time 2500 draw_zero)
         (Settles 0 (Questions_response Rejected)) Scenario.awaiting_questions
      = Some s' /\
    active (page s') = Some S_error /\
    error_message (page s') = Some could_not_load /\
    intervals (browser s') = [].
Proof.
  assert (H : pending (browser Scenario.awaiting_questions) !! O = Some P_questions)
    by (vm_compute; reflexivity).
  split; [exact H|].
  destruct (startQuiz_rejected (Scenario.at_time 2500 draw_zero) O
              Scenario.awaiting_questions H)
    as (s' & Hstep & Ha & Hm & _ & Hi & _).
  exists s'. split; [exact Hstep|]. split; [exact Ha|]. split; [exact Hm|].
  rewrite Hi. vm_compute; reflexivity.
Defined.

Lemma init_already_completed_witness :
  property "completed" Scenario.completed = Some (Some (JBool true)) /\
  truthy (Some (JBool true)) = true /\
  exists s',
    run [ (Scenario.at_time 1500 draw_zero, Settles 0 Slept);
          (Scenario.at_time 1600 draw_zero,
           Settles 0 (Check_response (Body Scenario.completed))) ]
        (initial Scenario.member) = Some s' /\
    active (page s') = Some S_error /\
    error_message (page s') = Some already_completed /\
    trace (browser s') = [E_fetch (GET_check_user (Platform 42)); E_screen S_error].
Proof.
  split; [reflexivity|]. split; [reflexivity|].
  destruct (init_already_completed Scenario.member
              (Scenario.at_time 1500 draw_zero) (Scenario.at_time 1600 draw_zero)
              Scenario.completed (Some (JBool true)) eq_refl eq_refl)
    as (s' & Hrun & Ha & Hm & Ht & _).
  exists s'. split; [exact Hrun|]. split; [exact Ha|]. split; [exact Hm|].
  exact Ht.
Defined.

Lemma guest_identifier_redrawn_witness :
  tg_user_id Scenario.guest = None /\
  exists s' u r,
    run Scenario.guest_session (initial Scenario.guest) = Some s' /\
    checked s' = [u] /\ submitted s' = [r] /\ telegram_user_id r <> u.
Proof.
  split; [reflexivity|].
  exact (proj2 (proj2 (proj2 (guest_identifier_redrawn Scenario.guest eq_refl)))).
Defined.

(** * Further properties of the client *)

(** ** shuffleArray *)

Lemma swap_fmap {A B} (f : A -> B) (a : list A) (i j : nat) :
  swap (f <$> a) i j = f <$> swap a i j.
Proof.
  unfold swap. rewrite !list_lookup_fmap.
  destruct (a !! i) as [x|]; [|done]. destruct (a !! j) as [y|]; [|done].
  simpl. by rewrite !list_fmap_insert.
Qed.

Lemma shuffle_loop_fmap {A B} (f : A -> B) rnd i (a : list A) :
  shuffle_loop rnd i (f <$> a) = f <$> shuffle_loop rnd i a.
Proof.
  revert rnd a. induction i as [|i IH]; intros rnd a; simpl; [done|].
  by rewrite swap_fmap, IH.
Qed.

(** X1: [shuffleArray] never reads or writes outside the array: the loop
    that stops at such an access runs to the end, with the same result. *)
Theorem shuffleArray_stays_inside {A} (rnd : nat -> random01) (array : list A) :
  shuffle_checked rnd (length array - 1) array = Some (shuffleArray rnd array).
Proof. apply shuffleArray_in_range. Qed.

(** X2: where an element goes depends on the draws and on the length of the
    array only, not on the elements: shuffling the images under [f] gives
    the images of the shuffled array.  So the identifiers of the shuffled
    questions are the shuffled identifiers. *)
Theorem shuffleArray_map {A B} (f : A -> B) (rnd : nat -> random01)
  (array : list A) :
  shuffleArray rnd (map f array) = map f (shuffleArray rnd array).
Proof.
  unfold shuffleArray. rewrite length_map. apply shuffle_loop_fmap.
Qed.

(** ** getTopicName *)

(** X3: the label is the statistics one exactly for identifiers up to 3
    (zero and negative ones included), the probability one exactly for 4, 5
    and 6, the machine-learning one exactly from 7 on. *)
Theorem getTopicName_thresholds (id : Z) :
  (getTopicName id = "📊 Статистика" <-> id <= 3) /\
  (getTopicName id = "🎲 Теория вероятностей" <-> 4 <= id <= 6) /\
  (getTopicName id = "🤖 Machine Learning" <-> 7 <= id).
Proof.
  unfold getTopicName.
  destruct (Z.leb_spec id 3); [|destruct (Z.leb_spec id 6)];
    repeat split; intros; try lia; try discriminate; reflexivity.
Qed.

(** ** updateMotivation *)

(** X4: whatever the draw, the caption becomes one of the seven phrases
    (the index never leaves the list), and nothing but the caption
    changes. *)
Theorem updateMotivation_phrase (r : random01) (s : State) :
  exists phrase,
    motivation_text (page (updateMotivation r s)) = Some phrase /\
    phrase ∈ motivationPhrases /\
    vars (updateMotivation r s) = vars s /\
    browser (updateMotivation r s) = browser s /\
    active (page (updateMotivation r s)) = active (page s) /\
    option_buttons (page (updateMotivation r s)) = option_buttons (page s).
Proof.
  assert (Hlt : (floor_mul r (length motivationPhrases) < length motivationPhrases)%nat).
  { apply floor_mul_lt. simpl. lia. }
  destruct (lookup_lt_is_Some_2 _ _ Hlt) as [phrase Hphrase].
  exists phrase. split; [exact Hphrase|]. split; [|done].
  apply list_elem_of_lookup. eauto.
Qed.

(** ** startQuiz *)

(** X5: with at least one question in the catalog, a successful [startQuiz]
    ends on the quiz screen with a new interval started and kept in
    [timerInterval]; the sequence is a permutation of the three pools put
    together, and the page shows its first question: text, option buttons,
    the topic of its identifier and the counter 1 of the total. *)
Theorem startQuiz_shows_first_question (env : Env) (data : Catalog) (s : State) :
  let pool := statistics data ++ probability data ++ ml data in
  pool <> [] ->
  let s' := startQuiz_after_fetch env (Body data) s in
  active (page s') = Some S_quiz /\
  error_message (page s') = error_message (page s) /\
  allQuestions (vars s') ≡ₚ pool /\
  timerInterval (vars s') = Some (next_interval (browser s)) /\
  intervals (browser s') = intervals (browser s) ++ [next_interval (browser s)] /\
  exists q,
    allQuestions (vars s') !! O = Some q /\
    question_text (page s') = Some (q_question q) /\
    option_buttons (page s') = q_options q /\
    current_topic (page s') = Some (getTopicName (q_id q)) /\
    question_counter (page s') = Some (1%nat, length pool).
Proof.
  intros pool Hpool s'. subst s'.
  destruct (shuffleArray_permutation (random env) pool) as [Hperm Hlen].
  assert (Hq : is_Some (shuffleArray (random env) pool !! O)).
  { apply lookup_lt_is_Some_2. rewrite Hlen. destruct pool; [done|simpl; lia]. }
  destruct Hq as [q Hq].
  unfold startQuiz_after_fetch, displayQuestion. fold pool. simpl.
  rewrite Hq. simpl. rewrite Hlen.
  repeat split; try done. exists q. repeat split; done.
Qed.

(** X6: with an empty catalog the request succeeds but there is no first
    question to display: the page ends on the error screen with the message
    about loading, and the interval started just before is left running. *)
Theorem startQuiz_empty_catalog (env : Env) (data : Catalog) (s : State) :
  statistics data = [] -> probability data = [] -> ml data = [] ->
  let s' := startQuiz_after_fetch env (Body data) s in
  active (page s') = Some S_error /\
  error_message (page s') = Some could_not_load /\
  allQuestions (vars s') = [] /\
  timerInterval (vars s') = Some (next_interval (browser s)) /\
  intervals (browser s') = intervals (browser s) ++ [next_interval (browser s)] /\
  option_buttons (page s') = option_buttons (page s) /\
  trace (browser s') =
    trace (browser s) ++ [E_screen S_quiz; E_setInterval (next_interval (browser s));
                          E_screen S_error].
Proof.
  intros Hs Hp Hm s'. subst s'.
  unfold startQuiz_after_fetch. rewrite Hs, Hp, Hm. simpl.
  repeat split. by rewrite <- !app_assoc.
Qed.

(** ** init *)

(** X7: the pre-check stops the user only on a truthy [completed].  A
    rejected request, a body that is not JSON, [null], a body without the
    field and a falsy field all lead to the welcome screen and to nothing
    else. *)
Theorem init_check_failure_continues (resp : FetchResult json) (s : State) :
  (forall data flag, resp = Body data ->
     property "completed" data = Some flag -> truthy flag = false) ->
  init_after_check resp s = showScreen S_welcome s.
Proof.
  intros H. unfold init_after_check.
  destruct resp as [| |data]; [done|done|].
  destruct (property "completed" data) as [flag|] eqn:Hflag; [|done].
  by rewrite (H data flag eq_refl Hflag).
Qed.

(** ** What a handler adds to the trace *)

Lemma finishQuiz_submits env s :
  exists rec,
    trace (browser (finishQuiz env s)) =
      trace (browser s)
      ++ [E_finish; E_clearInterval (timerInterval (vars s));
          E_fetch (POST_submit rec)] /\
    pending (browser (finishQuiz env s)) =
      pending (browser s) ++ [P_submit (time_spent rec)] /\
    telegram_user_id rec = current_userId (tg (browser s)) (random env O) /\
    username rec = current_username (tg (browser s)) /\
    answers rec = userAnswers (vars s) /\
    questions rec = map q_id (allQuestions (vars s)) /\
    time_spent rec = (now env - default 0 (startTime (vars s))) / 1000.
Proof.
  eexists. split.
  - unfold finishQuiz; simpl. rewrite <- !app_assoc. reflexivity.
  - repeat split.
Qed.

Lemma finishQuiz_tg env s : tg (browser (finishQuiz env s)) = tg (browser s).
Proof. reflexivity. Qed.

Lemma selectAnswer_trace answerIndex env s :
  tg (browser (selectAnswer answerIndex env s)) = tg (browser s) /\
  exists ext,
    trace (browser (selectAnswer answerIndex env s)) = trace (browser s) ++ ext /\
    handler_trace (tg (browser s)) ext.
Proof.
  unfold selectAnswer. destruct (_ <? _)%nat.
  - rewrite displayQuestion_browser. split; [done|].
    exists []. split; [by rewrite app_nil_r | constructor].
  - rewrite finishQuiz_tg. split; [done|].
    match goal with |- context [finishQuiz env ?s1] =>
      destruct (finishQuiz_submits env s1) as (rec & Htr & _ & Hid & Hname & _)
    end.
    eexists. split; [exact Htr|]. by econstructor.
Qed.

Lemma tick_trace env s :
  tg (browser (tick env s)) = tg (browser s) /\
  exists ext,
    trace (browser (tick env s)) = trace (browser s) ++ ext /\
    handler_trace (tg (browser s)) ext.
Proof.
  unfold tick. destruct (_ <=? 0).
  - rewrite finishQuiz_tg. split; [done|].
    match goal with |- context [finishQuiz env ?s1] =>
      destruct (finishQuiz_submits env s1) as (rec & Htr & _ & Hid & Hname & _)
    end.
    eexists. split.
    + rewrite Htr. simpl. rewrite <- app_assoc. reflexivity.
    + simpl. by econstructor.
  - split; [done|]. exists []. split; [by rewrite app_nil_r | constructor].
Qed.

Lemma startQuiz_after_fetch_trace env resp s :
  tg (browser (startQuiz_after_fetch env resp s)) = tg (browser s) /\
  exists ext,
    trace (browser (startQuiz_after_fetch env resp s)) = trace (browser s) ++ ext /\
    handler_trace (tg (browser s)) ext.
Proof.
  unfold startQuiz_after_fetch.
  destruct resp as [| |data];
    try (split; [done|]; eexists; split; [reflexivity | constructor]).
  unfold displayQuestion; simpl. destruct (_ !! _).
  - split; [done|]. eexists. split; [|apply ht_start].
    simpl. by rewrite <- app_assoc.
  - split; [done|]. eexists. split; [|apply ht_start_failed].
    simpl. by rewrite <- !app_assoc.
Qed.

Lemma init_after_check_trace resp s :
  tg (browser (init_after_check resp s)) = tg (browser s) /\
  exists sc,
    trace (browser (init_after_check resp s)) = trace (browser s) ++ [E_screen sc].
Proof.
  unfold init_after_check.
  destruct resp as [| |data]; try (split; [done|]; by eexists).
  destruct (property _ data) as [flag|]; [|split; [done|]; by eexists].
  destruct (truthy flag); (split; [done|]; by eexists).
Qed.

(** Every handler keeps the platform object and extends the trace by one of
    the shapes of [handler_trace]. *)
Lemma step_trace env e s s' :
  step env e s = Some s' ->
  tg (browser s') = tg (browser s) /\
  exists ext,
    trace (browser s') = trace (browser s) ++ ext /\
    handler_trace (tg (browser s)) ext.
Proof.
  destruct e as [| answerIndex | id | k r]; simpl.
  - destruct (bool_decide _); intros [= <-].
    split; [done|]. eexists. split; [reflexivity | constructor].
  - destruct (_ && _); intros [= <-]. apply selectAnswer_trace.
  - destruct (bool_decide _); intros [= <-]. apply tick_trace.
  - destruct (pending (browser s) !! k) as [[| | |timeSpent]|]; [| | | |done];
      destruct r as [|resp|resp|ok]; intros [= <-].
    + split; [done|]. eexists. split; [reflexivity | apply ht_check].
    + destruct (init_after_check_trace resp (resume k s)) as [Htg [sc Htr]].
      split; [exact Htg|]. eexists. split; [exact Htr | constructor].
    + apply (startQuiz_after_fetch_trace env resp (resume k s)).
    + split; [done|]. eexists. split; [reflexivity | constructor].
Qed.

Lemma step_timeRemaining env e s s' :
  step env e s = Some s' ->
  timeRemaining (vars s') = timeRemaining (vars s) - (if is_tick e then 1 else 0).
Proof.
  destruct e as [| answerIndex | id | k r]; simpl.
  - destruct (bool_decide _); intros [= <-]. simpl. lia.
  - destruct (_ && _); intros [= <-]. unfold selectAnswer.
    destruct (_ <? _)%nat.
    + rewrite displayQuestion_vars. simpl. lia.
    + rewrite finishQuiz_vars. simpl. lia.
  - destruct (bool_decide _); intros [= <-]. unfold tick; simpl.
    by destruct (_ <=? 0).
  - destruct (pending (browser s) !! k) as [[| | |timeSpent]|]; [| | | |done];
      destruct r as [|resp|resp|ok]; intros [= <-].
    + simpl. lia.
    + rewrite init_after_check_vars. simpl. lia.
    + destruct resp as [| |data]; try (simpl; lia).
      destruct (startQuiz_after_fetch_vars env data (resume k s))
        as (_ & _ & _ & ->). simpl. lia.
    + simpl. lia.
Qed.

(** ** Invariants of the event loop *)

Lemma run_trace_invariant (P : list Effect -> Prop) (t : Telegram) :
  (forall tr ext, P tr -> handler_trace t ext -> P (tr ++ ext)) ->
  forall events s s',
    tg (browser s) = t -> P (trace (browser s)) ->
    run events s = Some s' ->
    P (trace (browser s')) /\ tg (browser s') = t.
Proof.
  intros Hext events. induction events as [|[env e] events IH];
    intros s s' Ht HP; simpl.
  - by intros [= <-].
  - destruct (step env e s) as [s1|] eqn:Hstep; [|done].
    destruct (step_trace env e s s1 Hstep) as (Htg & ext & Htr & Hshape).
    apply IH.
    + by rewrite Htg.
    + rewrite Htr. apply Hext; [done|]. by rewrite Ht in Hshape.
Qed.

(** X8: for a user whose platform identifier is not 0, every pre-check and
    every submitted record of a session carries that identifier, and every
    record the user name [finishQuiz] takes from the platform: no draw
    enters either. *)
Theorem platform_user_id_consistent
  (t : Telegram) (id : Z) (events : list (Env * Event)) (s : State) :
  tg_user_id t = Some id -> id <> 0 ->
  run events (initial t) = Some s ->
  Forall (fun u => u = Platform id) (checked s) /\
  Forall (fun rec => telegram_user_id rec = Platform id /\
                     username rec = current_username t) (submitted s).
Proof.
  intros Ht Hid Hrun.
  assert (Hu : forall r, current_userId t r = Platform id).
  { intros r. unfold current_userId. rewrite Ht.
    destruct (Z.eqb_spec id 0); [done|reflexivity]. }
  unfold checked, submitted.
  refine (proj1 (run_trace_invariant
    (fun tr =>
       Forall (fun u => u = Platform id)
         (omap (fun e => match e with
                         | E_fetch (GET_check_user u) => Some u
                         | _ => None
                         end) tr) /\
       Forall (fun rec => telegram_user_id rec = Platform id /\
                          username rec = current_username t)
         (omap (fun e => match e with
                         | E_fetch (POST_submit r) => Some r
                         | _ => None
                         end) tr))
    t _ events (initial t) s eq_refl _ Hrun)).
  - intros tr ext [Hc Hs] Hshape. rewrite !omap_app, !Forall_app.
    destruct Hshape as [| sc | | r | r x rec Hr Hn | r x rec Hr Hn | i | i];
      simpl; repeat split; try done; repeat constructor;
      rewrite ?Hu in *; done.
  - simpl. split; constructor.
Qed.

(** X9: in every state a session reaches, exactly one record has been
    submitted for each entry into [finishQuiz]. *)
Theorem every_finish_submits_once
  (t : Telegram) (events : list (Env * Event)) (s : State) :
  run events (initial t) = Some s ->
  length (submitted s) = finish_calls s.
Proof.
  intros Hrun. unfold submitted, finish_calls.
  refine (proj1 (run_trace_invariant
    (fun tr =>
       length (omap (fun e => match e with
                              | E_fetch (POST_submit r) => Some r
                              | _ => None
                              end) tr)
       = length (filter (fun e => is_finish e = true) tr))
    t _ events (initial t) s eq_refl eq_refl Hrun)).
  intros tr ext Htr Hshape.
  rewrite omap_app, filter_app, !length_app, Htr.
  destruct Hshape; reflexivity.
Qed.

(** X10: the countdown is changed by the interval callback only, one
    second a firing: after any events it is what it was, less the number of
    firings among them.  No start of a quiz sets it back. *)
Theorem countdown_counts_ticks (events : list (Env * Event)) (s s' : State) :
  run events s = Some s' ->
  timeRemaining (vars s') = timeRemaining (vars s) - Z.of_nat (ticks_in events).
Proof.
  revert s. induction events as [|[env e] events IH]; intros s; simpl.
  - intros [= <-]. unfold ticks_in; simpl. lia.
  - destruct (step env e s) as [s1|] eqn:Hstep; [|done].
    intros Hrun. rewrite (IH s1 Hrun), (step_timeRemaining env e s s1 Hstep).
    unfold ticks_in. rewrite filter_cons. simpl.
    destruct e; simpl; lia.
Qed.

(** ** Answering, running out of time, finishing *)

Lemma selectAnswer_next answerIndex env s :
  (S (currentQuestionIndex (vars s)) < length (allQuestions (vars s)))%nat ->
  browser (selectAnswer answerIndex env s) = browser s /\
  allQuestions (vars (selectAnswer answerIndex env s)) = allQuestions (vars s).
Proof.
  intros Hlt. unfold selectAnswer. cbn [vars with_vars currentQuestionIndex allQuestions].
  destruct (Nat.ltb_spec (S (currentQuestionIndex (vars s)))
                         (length (allQuestions (vars s)))); [|lia].
  by rewrite displayQuestion_browser, displayQuestion_vars.
Qed.

Lemma selectAnswer_last answerIndex env s :
  (length (allQuestions (vars s)) <= S (currentQuestionIndex (vars s)))%nat ->
  exists rec,
    trace (browser (selectAnswer answerIndex env s)) =
      trace (browser s)
      ++ [E_finish; E_clearInterval (timerInterval (vars s));
          E_fetch (POST_submit rec)] /\
    answers rec = userAnswers (vars s) ++ [answerIndex] /\
    questions rec = map q_id (allQuestions (vars s)) /\
    allQuestions (vars (selectAnswer answerIndex env s)) = allQuestions (vars s).
Proof.
  intros Hge. unfold selectAnswer. cbn [vars with_vars currentQuestionIndex allQuestions].
  destruct (Nat.ltb_spec (S (currentQuestionIndex (vars s)))
                         (length (allQuestions (vars s)))); [lia|].
  match goal with |- context [finishQuiz env ?s1] =>
    destruct (finishQuiz_submits env s1) as (rec & Htr & _ & _ & _ & Ha & Hq & _)
  end.
  exists rec. by rewrite finishQuiz_vars.
Qed.

Lemma submitted_snoc s s' pre rec :
  trace (browser s') = trace (browser s) ++ pre ++ [E_fetch (POST_submit rec)] ->
  Forall (fun e => match e with E_fetch (POST_submit _) => False | _ => True end) pre ->
  submitted s' = submitted s ++ [rec].
Proof.
  unfold submitted. intros -> Hpre. rewrite !omap_app. simpl.
  replace (omap _ pre) with (@nil ResultRecord); [done|].
  induction Hpre as [|e pre He _ IH]; [done|].
  simpl. destruct e as [| [| |r] | | |]; try done.
Qed.

(** X11: when the option buttons are clicked once for each question still
    open, the answers grow by the clicked indices in the order of the
    clicks, [finishQuiz] is entered once, by the last click, and the one
    record it submits has these answers, for the identifiers of the
    questions in the order they were shown. *)
Theorem select_all_completes (clicks : list (Env * nat)) (s : State) :
  clicks <> [] ->
  (currentQuestionIndex (vars s) + length clicks)%nat
    = length (allQuestions (vars s)) ->
  let s' := select_all clicks s in
  userAnswers (vars s') = userAnswers (vars s) ++ map snd clicks /\
  currentQuestionIndex (vars s') = length (allQuestions (vars s')) /\
  finish_calls s' = S (finish_calls s) /\
  exists rec,
    submitted s' = submitted s ++ [rec] /\
    answers rec = userAnswers (vars s) ++ map snd clicks /\
    questions rec = map q_id (allQuestions (vars s)).
Proof.
  revert s. induction clicks as [|[env a] clicks IH]; intros s Hne Hlen; [done|].
  destruct clicks as [|c clicks].
  - simpl in *.
    destruct (selectAnswer_answers a env s) as [Hans Hidx].
    destruct (selectAnswer_last a env s ltac:(lia)) as (rec & Htr & Ha & Hq & Hall).
    rewrite Hans, Hidx, Hall. split; [done|]. split; [lia|]. split.
    + unfold finish_calls. rewrite Htr, filter_app, length_app. simpl. lia.
    + exists rec. split; [|done].
      apply (submitted_snoc s _ [E_finish; E_clearInterval (timerInterval (vars s))]);
        [exact Htr | repeat constructor].
  - set (s1 := selectAnswer a env s).
    destruct (selectAnswer_answers a env s) as [Hans Hidx].
    destruct (selectAnswer_next a env s) as [Hb Hall].
    { simpl in Hlen. lia. }
    fold s1 in Hans, Hidx, Hb, Hall.
    destruct (IH s1) as (Hans' & Hidx' & Hfin & rec & Hsub & Ha & Hq).
    { done. }
    { rewrite Hidx, Hall. simpl in *. lia. }
    cbv zeta.
    change (select_all ((env, a) :: c :: clicks) s) with (select_all (c :: clicks) s1).
    rewrite Hans', Hidx', Hfin, Hans, <- app_assoc.
    split; [done|]. split; [done|]. split.
    + unfold finish_calls. by rewrite Hb.
    + exists rec. rewrite Hsub, Ha, Hq, Hans, Hall, <- app_assoc.
      unfold submitted. by rewrite Hb.
Qed.

(** X12: when the countdown runs out while a question is on display, the
    interval callback enters [finishQuiz] once; the record it submits has
    the answers given so far, fewer than there are questions, and the
    interval kept in [timerInterval] fires no more. *)
Theorem timeout_submits_partial (env : Env) (s : State) :
  in_progress s = true ->
  answers_match_index s ->
  timeRemaining (vars s) <= 1 ->
  let s' := tick env s in
  finish_calls s' = S (finish_calls s) /\
  (exists rec,
     submitted s' = submitted s ++ [rec] /\
     answers rec = userAnswers (vars s) /\
     questions rec = map q_id (allQuestions (vars s)) /\
     (length (answers rec) < length (questions rec))%nat) /\
  (forall id, timerInterval (vars s) = Some id -> id ∉ intervals (browser s')).
Proof.
  intros Hs Hinv Hr s'. subst s'.
  apply andb_prop in Hs as [_ Hlt]. apply Nat.ltb_lt in Hlt.
  unfold tick. cbn [vars with_vars with_page timeRemaining].
  destruct (Z.leb_spec (timeRemaining (vars s) - 1) 0); [|lia].
  match goal with |- context [finishQuiz env ?s1] =>
    destruct (finishQuiz_submits env s1) as (rec & Htr & _ & _ & _ & Ha & Hq & _);
    set (s2 := s1) in *
  end.
  split; [|split].
  - rewrite finishQuiz_finish_calls. f_equal.
    unfold finish_calls; simpl. rewrite filter_app, length_app; simpl. lia.
  - exists rec. split; [|split; [exact Ha|split; [exact Hq|]]].
    + apply (submitted_snoc s _
               [E_clearInterval (timerInterval (vars s)); E_finish;
                E_clearInterval (timerInterval (vars s))]);
        [|repeat constructor].
      rewrite Htr. simpl. by rewrite <- app_assoc.
    + rewrite Ha, Hq, length_map. simpl. rewrite Hinv. exact Hlt.
  - intros id Hid. unfold finishQuiz; simpl. rewrite Hid.
    intros Hin. apply list_elem_of_filter in Hin as [Hne _]. by apply Hne.
Qed.

(** X13: with more than a second left, the interval callback takes one
    second off the countdown and shows it as minutes and seconds (seconds
    below 60); it changes nothing else: no call of [finishQuiz], no interval
    cleared, the answers and the index as they were. *)
Theorem tick_before_zero (env : Env) (s : State) :
  1 < timeRemaining (vars s) ->
  let s' := tick env s in
  timeRemaining (vars s') = timeRemaining (vars s) - 1 /\
  browser s' = browser s /\
  userAnswers (vars s') = userAnswers (vars s) /\
  currentQuestionIndex (vars s') = currentQuestionIndex (vars s) /\
  active (page s') = active (page s) /\
  exists m sec,
    timer (page s') = Some (m, sec) /\
    60 * m + sec = timeRemaining (vars s) - 1 /\ 0 <= sec < 60.
Proof.
  intros Hr s'. subst s'. unfold tick. cbn [vars with_vars with_page timeRemaining].
  destruct (Z.leb_spec (timeRemaining (vars s) - 1) 0); [lia|].
  repeat split. eexists _, _. split; [reflexivity|].
  rewrite Z.rem_mod_nonneg by lia.
  pose proof (Z.div_mod (timeRemaining (vars s) - 1) 60 ltac:(lia)).
  pose proof (Z.mod_pos_bound (timeRemaining (vars s) - 1) 60 ltac:(lia)).
  lia.
Qed.

(** X14: [finishQuiz] for a quiz started at [t0], entered when the clock is
    not before [t0]: the submitted time is the whole seconds elapsed (not
    negative, less than a second short of the elapsed milliseconds), the
    same number the function keeps for the final screen. *)
Theorem finishQuiz_time_spent (env : Env) (t0 : Z) (s : State) :
  startTime (vars s) = Some t0 ->
  t0 <= now env ->
  exists rec,
    submitted (finishQuiz env s) = submitted s ++ [rec] /\
    0 <= time_spent rec /\
    1000 * time_spent rec <= now env - t0 < 1000 * time_spent rec + 1000 /\
    pending (browser (finishQuiz env s)) =
      pending (browser s) ++ [P_submit (time_spent rec)].
Proof.
  intros Ht0 Hnow.
  destruct (finishQuiz_submits env s) as (rec & Htr & Hp & _ & _ & _ & _ & Hts).
  exists rec. rewrite Ht0 in Hts. simpl in Hts.
  split; [|split; [|split; [|exact Hp]]].
  - apply (submitted_snoc s _ [E_finish; E_clearInterval (timerInterval (vars s))]);
      [exact Htr | repeat constructor].
  - rewrite Hts. apply Z.div_pos; lia.
  - rewrite Hts.
    pose proof (Z.div_mod (now env - t0) 1000 ltac:(lia)).
    pose proof (Z.mod_pos_bound (now env - t0) 1000 ltac:(lia)).
    lia.
Qed.

(** X15: when the submit call is over, however it ended, [finishQuiz]
    shows the final screen with the number of answers out of the number of
    questions, changes no variable, and writes the time as
    [Math.floor(timeSpent / 60)] and [timeSpent % 60].  For a [timeSpent]
    that is not negative these are minutes and seconds (seconds below 60,
    adding up to [timeSpent]); for a negative one (the clock was set back)
    the minutes are negative and the seconds between -59 and 0. *)
Theorem finishQuiz_shows_final
  (env : Env) (k : nat) (ok : bool) (timeSpent : Z) (s : State) :
  pending (browser s) !! k = Some (P_submit timeSpent) ->
  exists s',
    step env (Settles k (Submit_response ok)) s = Some s' /\
    active (page s') = Some S_final /\
    questions_answered (page s') =
      Some (length (userAnswers (vars s)), length (allQuestions (vars s))) /\
    vars s' = vars s /\
    pending (browser s') = delete k (pending (browser s)) /\
    time_spent_text (page s') = Some (timeSpent / 60, Z.rem timeSpent 60) /\
    (0 <= timeSpent ->
     60 * (timeSpent / 60) + Z.rem timeSpent 60 = timeSpent /\
     0 <= Z.rem timeSpent 60 < 60) /\
    (timeSpent < 0 ->
     timeSpent / 60 < 0 /\ -60 < Z.rem timeSpent 60 <= 0).
Proof.
  intros Hk. eexists. split.
  { simpl. rewrite Hk. reflexivity. }
  do 5 (split; [reflexivity|]).
  split.
  - intros Hts. split; [|apply Z.rem_bound_pos; lia].
    rewrite Z.rem_mod_nonneg by lia.
    pose proof (Z.div_mod timeSpent 60 ltac:(lia)). lia.
  - intros Hts. split; [apply Z.div_lt_upper_bound; lia|].
    pose proof (Z.rem_bound_pos_neg timeSpent 60 ltac:(lia) ltac:(lia)). lia.
Qed.

(** * Further properties of the servers *)

(** X16: [GET /data/questions] (in any letter case, with or without a
    slash at the end), when the static layer passes it on: the catalog as
    parsed from [data/questions.json]; status 500 with the error object
    when the file cannot be read; and no reply at all, the process ending,
    when the file is not JSON.  The files stay as they are. *)
Theorem app_questions_route
  (dirname : list string) (req : Server.Req)
  (files : gmap (list string) Server.File) :
  Server.reads (Server.method req) = true ->
  Server.same_path ["data"; "questions"] (Server.path req) = true ->
  Server.static [] (dirname ++ ["frontend"]) req files = None ->
  Server.handle (Server.app dirname) req files =
    (match files !! Server.questions_file dirname with
     | Some (Server.Regular _ (Some catalog)) =>
         Server.Replied 200 (Server.B_json catalog)
     | Some (Server.Regular _ None) => Server.Crashed
     | Some Server.Directory | None =>
         Server.Replied 500
           (Server.B_json (JObj [("error", JStr "Failed to load questions")]))
     end, files).
Proof.
  intros Hm Hsame Hstatic.
  unfold Server.app. cbn [Server.handle]. rewrite Hstatic.
  unfold Server.get. rewrite Hm, Hsame. simpl.
  unfold Server.send_json_file.
  by destruct (files !! Server.questions_file dirname) as [[text [j|]|]|].
Qed.

(** X17: the static layer comes first.  A GET or HEAD whose path has no
    name that begins with a dot and no slash at the end gets the regular
    file of that path under [frontend], and is redirected (status 301) to
    the path with a slash added when the path names a directory there;
    also when the path is the one of a [/data] route. *)
Theorem app_static_first
  (dirname : list string) (req : Server.Req)
  (files : gmap (list string) Server.File) (entry : Server.File) :
  Server.reads (Server.method req) = true ->
  existsb Server.dotfile (Server.path req) = false ->
  Server.ends_with_slash (Server.path req) = false ->
  files !! ((dirname ++ ["frontend"]) ++ Server.path req) = Some entry ->
  Server.handle (Server.app dirname) req files
    = (match entry with
       | Server.Regular text parsed =>
           Server.Replied 200 (Server.B_file text parsed)
       | Server.Directory =>
           Server.Replied 301 (Server.B_redirect (Server.path req ++ [""]))
       end, files).
Proof.
  intros Hm Hdot Hslash Hentry.
  unfold Server.app. cbn [Server.handle].
  unfold Server.static. rewrite Hm. cbn [Server.under].
  rewrite Hdot, Hslash, Hentry. by destruct entry.
Qed.

(** X18: the one route of [backend/server.js], when the static layer
    passes the request on, answers with an empty list of questions whatever
    the files hold, and leaves them as they are. *)
Theorem backend_app_questions_empty
  (dirname : list string) (req : Server.Req)
  (files : gmap (list string) Server.File) :
  Server.reads (Server.method req) = true ->
  Server.same_path ["sber_trajectory_bot"; "api"; "questions"] (Server.path req) = true ->
  Server.static ["sber_trajectory_bot"] (Server.sibling_frontend dirname) req files
    = None ->
  Server.handle (Server.backend_app dirname) req files
    = (Server.Replied 200 (Server.B_json (JObj [("questions", JArr [])])), files).
Proof.
  intros Hm Hsame Hstatic.
  unfold Server.backend_app. cbn [Server.handle]. rewrite Hstatic.
  unfold Server.get. by rewrite Hm, Hsame.
Qed.

(** X19: [backend/server.js] serves nothing outside [/sber_trajectory_bot]:
    every other path, the root included, gets the 404 page, and the files
    stay as they are. *)
Theorem backend_app_outside_prefix
  (dirname : list string) (req : Server.Req)
  (files : gmap (list string) Server.File) :
  Server.under ["sber_trajectory_bot"] (Server.path req) = None ->
  Server.handle (Server.backend_app dirname) req files
    = (Server.Replied 404 Server.B_not_found, files).
Proof.
  intros Hunder. unfold Server.backend_app. cbn [Server.handle].
  assert (Hstatic : Server.static ["sber_trajectory_bot"]
                      (Server.sibling_frontend dirname) req files = None).
  { unfold Server.static. rewrite Hunder. by destruct (Server.reads _). }
  rewrite Hstatic. rewrite other_path_not_routed; [done|].
  unfold Server.without_slash.
  destruct (Server.path req) as [|x p]; [simpl; intros [=]|].
  cbn [Server.under] in Hunder.
  destruct (bool_decide _) eqn:Hx; [done|].
  apply bool_decide_eq_false_1 in Hx.
  destruct (Server.ends_with_slash (x :: p)); [|cbn [map]; intros [= Hhead _]; by apply Hx].
  destruct p as [|y p]; [simpl; intros [=]|].
  simpl. intros [= Hhead _]. by apply Hx.
Qed.

(** * The client against the server on port 8000 *)

(** X20: against the server on port 8000 the pre-check stops nobody whose
    identifier names nothing under [frontend/data/check-user].  Whatever
    the results file holds, when the disk has neither a file nor a
    directory of that name, [GET /data/check-user/...] gets the 404 page,
    [response.json()] fails on it, and [init] goes on to the welcome
    screen. *)
Theorem precheck_against_app_never_blocks
  (dirname : list string) (files : gmap (list string) Server.File)
  (segment : string) (s : State) :
  segment <> "" ->
  files !! ((dirname ++ ["frontend"]) ++ ["data"; "check-user"; segment]) = None ->
  Wire.fetched (Server.app dirname) (Wire.check_user_request segment) files
    = Server.Replied 404 Server.B_not_found /\
  init_after_check
    (Wire.response_json
       (Wire.fetched (Server.app dirname) (Wire.check_user_request segment) files))
    s
  = showScreen S_welcome s.
Proof.
  intros Hne Hnone.
  assert (H404 : Server.handle (Server.app dirname)
                   (Wire.check_user_request segment) files
                 = (Server.Replied 404 Server.B_not_found, files)).
  { unfold Server.app. cbn [Server.handle].
    rewrite (static_passes_on_missing [] _ _ files ["data"; "check-user"; segment]);
      [|done|apply (last_segment_no_slash ["data"; "check-user"] segment Hne)|done].
    rewrite !(check_user_not_routed _ _ files segment) by (simpl; auto).
    done. }
  assert (Hf : Wire.fetched (Server.app dirname)
                 (Wire.check_user_request segment) files
               = Server.Replied 404 Server.B_not_found).
  { unfold Wire.fetched. by rewrite H404. }
  split; [exact Hf|]. rewrite Hf. reflexivity.
Qed.

(** * The further theorems at concrete inputs *)

Lemma startQuiz_shows_first_question_witness :
  statistics Scenario.three_questions ++ probability Scenario.three_questions
    ++ ml Scenario.three_questions <> [] /\
  active (page Scenario.on_first_of_three) = Some S_quiz /\
  question_counter (page Scenario.on_first_of_three) = Some (1%nat, 3%nat).
Proof.
  assert (H : statistics Scenario.three_questions
              ++ probability Scenario.three_questions
              ++ ml Scenario.three_questions <> []) by discriminate.
  split; [exact H|].
  destruct (startQuiz_shows_first_question (Scenario.at_time 2500 draw_half)
              Scenario.three_questions (resume 0 Scenario.awaiting_questions) H)
    as (Ha & _ & _ & _ & _ & q & _ & _ & _ & _ & Hc).
  split; [exact Ha | exact Hc].
Defined.

Lemma startQuiz_empty_catalog_witness :
  statistics Scenario.empty_catalog = [] /\
  probability Scenario.empty_catalog = [] /\
  ml Scenario.empty_catalog = [] /\
  let s' := startQuiz_after_fetch (Scenario.at_time 2500 draw_half)
              (Body Scenario.empty_catalog) (resume 0 Scenario.awaiting_questions) in
  active (page s') = Some S_error /\
  intervals (browser s') = [1%nat].
Proof.
  split; [reflexivity|]. split; [reflexivity|]. split; [reflexivity|].
  destruct (startQuiz_empty_catalog (Scenario.at_time 2500 draw_half)
              Scenario.empty_catalog (resume 0 Scenario.awaiting_questions)
              eq_refl eq_refl eq_refl)
    as (Ha & _ & _ & _ & Hi & _).
  split; [exact Ha | exact Hi].
Defined.

Lemma init_check_failure_continues_witness :
  (forall data flag, Body Scenario.not_completed = Body data ->
     property "completed" data = Some flag -> truthy flag = false) /\
  init_after_check (Body Scenario.not_completed) (initial Scenario.guest)
    = showScreen S_welcome (initial Scenario.guest).
Proof.
  assert (H : forall data flag, Body Scenario.not_completed = Body data ->
            property "completed" data = Some flag -> truthy flag = false).
  { intros data flag [= <-] [= <-]. reflexivity. }
  split; [exact H|].
  exact (init_check_failure_continues (Body Scenario.not_completed)
           (initial Scenario.guest) H).
Defined.

Lemma platform_user_id_consistent_witness :
  tg_user_id Scenario.member = Some 42 /\ 42 <> 0 /\
  run Scenario.guest_session (initial Scenario.member) = Some Scenario.member_done /\
  Forall (fun u => u = Platform 42) (checked Scenario.member_done).
Proof.
  assert (Hrun : run Scenario.guest_session (initial Scenario.member)
                 = Some Scenario.member_done) by (vm_compute; reflexivity).
  assert (Hne : 42 <> 0) by discriminate.
  split; [reflexivity|]. split; [exact Hne|]. split; [exact Hrun|].
  exact (proj1 (platform_user_id_consistent Scenario.member 42
                  Scenario.guest_session Scenario.member_done eq_refl Hne Hrun)).
Defined.

Lemma every_finish_submits_once_witness :
  run Scenario.guest_session (initial Scenario.member) = Some Scenario.member_done /\
  length (submitted Scenario.member_done) = finish_calls Scenario.member_done.
Proof.
  assert (Hrun : run Scenario.guest_session (initial Scenario.member)
                 = Some Scenario.member_done) by (vm_compute; reflexivity).
  split; [exact Hrun|].
  exact (every_finish_submits_once Scenario.member Scenario.guest_session
           Scenario.member_done Hrun).
Defined.

Lemma countdown_counts_ticks_witness :
  run Scenario.double_start (initial Scenario.guest)
    = Some Scenario.after_double_start /\
  ticks_in Scenario.double_start = 1%nat /\
  timeRemaining (vars Scenario.after_double_start) = 899 /\
  timeRemaining (vars Scenario.after_double_start)
    = timeRemaining (vars (initial Scenario.guest))
      - Z.of_nat (ticks_in Scenario.double_start).
Proof.
  assert (Hrun : run Scenario.double_start (initial Scenario.guest)
                 = Some Scenario.after_double_start) by (vm_compute; reflexivity).
  split; [exact Hrun|]. split; [vm_compute; reflexivity|].
  split; [vm_compute; reflexivity|].
  exact (countdown_counts_ticks Scenario.double_start (initial Scenario.guest)
           Scenario.after_double_start Hrun).
Defined.

Lemma select_all_completes_witness :
  Scenario.three_clicks <> [] /\
  (currentQuestionIndex (vars Scenario.on_first_of_three)
   + length Scenario.three_clicks)%nat
    = length (allQuestions (vars Scenario.on_first_of_three)) /\
  userAnswers (vars (select_all Scenario.three_clicks Scenario.on_first_of_three))
    = userAnswers (vars Scenario.on_first_of_three) ++ map snd Scenario.three_clicks.
Proof.
  assert (Hne : Scenario.three_clicks <> []) by discriminate.
  assert (Hlen : (currentQuestionIndex (vars Scenario.on_first_of_three)
                  + length Scenario.three_clicks)%nat
                 = length (allQuestions (vars Scenario.on_first_of_three)))
    by (vm_compute; reflexivity).
  split; [exact Hne|]. split; [exact Hlen|].
  exact (proj1 (select_all_completes Scenario.three_clicks
                  Scenario.on_first_of_three Hne Hlen)).
Defined.

Lemma timeout_submits_partial_witness :
  in_progress Scenario.last_second = true /\
  answers_match_index Scenario.last_second /\
  timeRemaining (vars Scenario.last_second) <= 1 /\
  finish_calls (tick (Scenario.at_time 9000 draw_half) Scenario.last_second)
    = S (finish_calls Scenario.last_second).
Proof.
  assert (Hp : in_progress Scenario.last_second = true) by (vm_compute; reflexivity).
  assert (Hi : answers_match_index Scenario.last_second) by (vm_compute; reflexivity).
  assert (Hr : timeRemaining (vars Scenario.last_second) <= 1)
    by (vm_compute; discriminate).
  split; [exact Hp|]. split; [exact Hi|]. split; [exact Hr|].
  exact (proj1 (timeout_submits_partial (Scenario.at_time 9000 draw_half)
                  Scenario.last_second Hp Hi Hr)).
Defined.

Lemma tick_before_zero_witness :
  1 < timeRemaining (vars Scenario.on_question) /\
  timeRemaining (vars (tick (Scenario.at_time 3500 draw_zero) Scenario.on_question))
    = timeRemaining (vars Scenario.on_question) - 1.
Proof.
  assert (Hr : 1 < timeRemaining (vars Scenario.on_question))
    by (vm_compute; reflexivity).
  split; [exact Hr|].
  exact (proj1 (tick_before_zero (Scenario.at_time 3500 draw_zero)
                  Scenario.on_question Hr)).
Defined.

Lemma finishQuiz_time_spent_witness :
  startTime (vars Scenario.on_question) = Some 2500 /\
  2500 <= now (Scenario.at_time 9000 draw_half) /\
  exists rec,
    submitted (finishQuiz (Scenario.at_time 9000 draw_half) Scenario.on_question)
      = submitted Scenario.on_question ++ [rec] /\
    0 <= time_spent rec.
Proof.
  assert (Ht : startTime (vars Scenario.on_question) = Some 2500)
    by (vm_compute; reflexivity).
  assert (Hn : 2500 <= now (Scenario.at_time 9000 draw_half))
    by (vm_compute; discriminate).
  split; [exact Ht|]. split; [exact Hn|].
  destruct (finishQuiz_time_spent (Scenario.at_time 9000 draw_half) 2500
              Scenario.on_question Ht Hn) as (rec & Hs & H0 & _).
  exists rec. split; [exact Hs | exact H0].
Defined.

Lemma finishQuiz_shows_final_witness :
  pending (browser Scenario.member_done) !! O = Some (P_submit 6) /\
  exists s',
    step (Scenario.at_time 9500 draw_zero) (Settles 0 (Submit_response false))
         Scenario.member_done = Some s' /\
    active (page s') = Some S_final /\
    questions_answered (page s') = Some (1%nat, 1%nat) /\
    time_spent_text (page s') = Some (0, 6).
Proof.
  assert (Hk : pending (browser Scenario.member_done) !! O = Some (P_submit 6))
    by (vm_compute; reflexivity).
  split; [exact Hk|].
  destruct (finishQuiz_shows_final (Scenario.at_time 9500 draw_zero) O false 6
              Scenario.member_done Hk) as (s' & Hstep & Ha & Hq & _ & _ & Ht & _).
  exists s'. split; [exact Hstep|]. split; [exact Ha|].
  split; [exact Hq | exact Ht].
Defined.

Lemma app_questions_route_witness :
  Server.same_path ["data"; "questions"] ["Data"; "Questions"; ""] = true /\
  Server.static [] ([] ++ ["frontend"])
    (Scenario.get_request ["Data"; "Questions"; ""]) Scenario.with_catalog = None /\
  Server.handle (Server.app []) (Scenario.get_request ["Data"; "Questions"; ""])
                Scenario.with_catalog
  = (Server.Replied 200 (Server.B_json Scenario.catalog_json),
     Scenario.with_catalog) /\
  Server.handle (Server.app []) (Scenario.get_request ["data"; "questions"])
                Scenario.with_broken_catalog
  = (Server.Crashed, Scenario.with_broken_catalog) /\
  Server.handle (Server.app []) (Scenario.get_request ["data"; "questions"])
                Scenario.disk
  = (Server.Replied 500
       (Server.B_json (JObj [("error", JStr "Failed to load questions")])),
     Scenario.disk).
Proof.
  assert (Hs : Server.same_path ["data"; "questions"] ["Data"; "Questions"; ""] = true)
    by (vm_compute; reflexivity).
  assert (Hn : Server.static [] ([] ++ ["frontend"])
                 (Scenario.get_request ["Data"; "Questions"; ""])
                 Scenario.with_catalog = None) by (vm_compute; reflexivity).
  assert (Hs' : Server.same_path ["data"; "questions"] ["data"; "questions"] = true)
    by (vm_compute; reflexivity).
  assert (Hb : Server.static [] ([] ++ ["frontend"])
                 (Scenario.get_request ["data"; "questions"])
                 Scenario.with_broken_catalog = None) by (vm_compute; reflexivity).
  assert (Hd : Server.static [] ([] ++ ["frontend"])
                 (Scenario.get_request ["data"; "questions"])
                 Scenario.disk = None) by (vm_compute; reflexivity).
  split; [exact Hs|]. split; [exact Hn|].
  split; [|split].
  - exact (app_questions_route [] (Scenario.get_request ["Data"; "Questions"; ""])
             Scenario.with_catalog eq_refl Hs Hn).
  - exact (app_questions_route [] (Scenario.get_request ["data"; "questions"])
             Scenario.with_broken_catalog eq_refl Hs' Hb).
  - exact (app_questions_route [] (Scenario.get_request ["data"; "questions"])
             Scenario.disk eq_refl Hs' Hd).
Defined.

Lemma app_static_first_witness :
  Scenario.site !! (([] ++ ["frontend"]) ++ ["data"; "questions"])
    = Some Scenario.shadow_file /\
  Scenario.site !! (([] ++ ["frontend"]) ++ ["data"]) = Some Server.Directory /\
  Server.handle (Server.app []) (Scenario.get_request ["data"; "questions"])
                Scenario.site
  = (Server.Replied 200 (Server.B_file "<html>" None), Scenario.site) /\
  Server.handle (Server.app []) (Scenario.get_request ["data"]) Scenario.site
  = (Server.Replied 301 (Server.B_redirect ["data"; ""]), Scenario.site).
Proof.
  assert (Hf : Scenario.site !! (([] ++ ["frontend"]) ++ ["data"; "questions"])
               = Some Scenario.shadow_file) by (vm_compute; reflexivity).
  assert (Hd : Scenario.site !! (([] ++ ["frontend"]) ++ ["data"])
               = Some Server.Directory) by (vm_compute; reflexivity).
  split; [exact Hf|]. split; [exact Hd|]. split.
  - exact (app_static_first [] (Scenario.get_request ["data"; "questions"])
             Scenario.site Scenario.shadow_file eq_refl eq_refl eq_refl Hf).
  - exact (app_static_first [] (Scenario.get_request ["data"])
             Scenario.site Server.Directory eq_refl eq_refl eq_refl Hd).
Defined.

Lemma backend_app_questions_empty_witness :
  Server.same_path ["sber_trajectory_bot"; "api"; "questions"]
                   ["sber_trajectory_bot"; "api"; "questions"] = true /\
  Server.static ["sber_trajectory_bot"] (Server.sibling_frontend ["backend"])
    (Scenario.get_request ["sber_trajectory_bot"; "api"; "questions"])
    Scenario.site = None /\
  Server.handle (Server.backend_app ["backend"])
    (Scenario.get_request ["sber_trajectory_bot"; "api"; "questions"]) Scenario.site
  = (Server.Replied 200 (Server.B_json (JObj [("questions", JArr [])])),
     Scenario.site).
Proof.
  assert (Hs : Server.same_path ["sber_trajectory_bot"; "api"; "questions"]
                 ["sber_trajectory_bot"; "api"; "questions"] = true)
    by (vm_compute; reflexivity).
  assert (Hn : Server.static ["sber_trajectory_bot"]
                 (Server.sibling_frontend ["backend"])
                 (Scenario.get_request ["sber_trajectory_bot"; "api"; "questions"])
                 Scenario.site = None) by (vm_compute; reflexivity).
  split; [exact Hs|]. split; [exact Hn|].
  exact (backend_app_questions_empty ["backend"]
           (Scenario.get_request ["sber_trajectory_bot"; "api"; "questions"])
           Scenario.site eq_refl Hs Hn).
Defined.

Lemma backend_app_outside_prefix_witness :
  Server.under ["sber_trajectory_bot"] ["data"; "questions"] = None /\
  Server.handle (Server.backend_app ["backend"])
    (Scenario.get_request ["data"; "questions"]) Scenario.site
  = (Server.Replied 404 Server.B_not_found, Scenario.site).
Proof.
  assert (Hu : Server.under ["sber_trajectory_bot"] ["data"; "questions"] = None)
    by (vm_compute; reflexivity).
  split; [exact Hu|].
  exact (backend_app_outside_prefix ["backend"]
           (Scenario.get_request ["data"; "questions"]) Scenario.site Hu).
Defined.

Lemma precheck_against_app_never_blocks_witness :
  "42" <> "" /\
  Scenario.disk !! (([] ++ ["frontend"]) ++ ["data"; "check-user"; "42"]) = None /\
  Server.has_record 42 (JArr [Scenario.record_of_42]) = true /\
  init_after_check
    (Wire.response_json
       (Wire.fetched (Server.app []) (Wire.check_user_request "42") Scenario.disk))
    (initial Scenario.member)
  = showScreen S_welcome (initial Scenario.member).
Proof.
  assert (Hne : "42" <> "") by discriminate.
  assert (Hn : Scenario.disk !! (([] ++ ["frontend"]) ++ ["data"; "check-user"; "42"])
               = None) by (vm_compute; reflexivity).
  split; [exact Hne|]. split; [exact Hn|]. split; [reflexivity|].
  exact (proj2 (precheck_against_app_never_blocks [] Scenario.disk "42"
                  (initial Scenario.member) Hne Hn)).
Defined.
